(** * urbackup-gui: the status poller and the two status presenters

    A shallow embedding of [src/urbackupgui/app.py] and [src/urbackup-gui.py].

    The program decodes the JSON document printed by the UrBackup control
    utility and copies its fields into a handful of widgets.  Everything the
    presenters do is subscripting, comparing and formatting Python values, so
    the development starts with the Python values a JSON document decodes to
    and the few operations on them that the program uses, each with the
    exception it raises.  Widgets are records of the properties the program
    sets; a method that updates them is a function from the record to an
    outcome and the record it leaves behind, so that what was already drawn
    when an exception is raised stays visible in the model, as it does on
    screen. *)

From Stdlib Require Import String Ascii List ZArith Lia Bool.
From Stdlib Require Import DecimalString.
Import ListNotations.
#[local] Set Warnings "-register-all".
Local Open Scope list_scope.
Local Open Scope string_scope.
Local Open Scope Z_scope.

(* ===================================================================== *)
(** ** Python values *)
(* ===================================================================== *)

(** What [json.loads] builds.  JSON numbers with a fraction or an exponent
    decode to Python floats; they are not represented here: the model covers
    documents whose numbers are integers, which is what the control utility
    prints for every field the program reads.  Strings are sequences of
    bytes (the UTF-8 encoding of the Python string). *)
Inductive pyval : Type :=
| PNone
| PBool (b : bool)
| PInt (n : Z)
| PStr (s : string)
| PList (l : list pyval)
| PDict (d : list (string * pyval)).

(** The exceptions the modelled code can raise.  [KeyError] carries the key
    that was looked up, as in Python. *)
Inductive exn : Type :=
| KeyError (key : pyval)
| IndexError
| TypeError
| ValueError
| OverflowError
| OSError
| JSONDecodeError
| FileNotFoundError
| SystemExit (code : Z).

Inductive outcome (A : Type) : Type :=
| Ok (a : A)
| Raise (e : exn).
Arguments Ok {A} a.
Arguments Raise {A} e.

Definition obind {A B} (x : outcome A) (k : A -> outcome B) : outcome B :=
  match x with
  | Ok a => k a
  | Raise e => Raise e
  end.

Declare Scope py_scope.
Delimit Scope py_scope with py.
Notation "x <~ e ;; k" := (obind e (fun x => k))
  (at level 61, e at next level, right associativity) : py_scope.
Notation "' pat <~ e ;; k" := (obind e (fun x => match x with pat => k end))
  (at level 61, pat pattern, e at next level, right associativity) : py_scope.
Local Open Scope py_scope.

(** String and integer literals stand for the Python objects they denote. *)
Coercion PStr : string >-> pyval.
Coercion PInt : Z >-> pyval.

Definition is_None (v : pyval) : bool :=
  match v with PNone => true | _ => false end.

(** [bool] is a subclass of [int]: where an integer is expected, [True] and
    [False] count as 1 and 0. *)
Definition as_int (v : pyval) : option Z :=
  match v with
  | PInt n => Some n
  | PBool b => Some (if b then 1 else 0)
  | _ => None
  end.

(** [v == n] for an integer literal [n]. *)
Definition eq_int (v : pyval) (n : Z) : bool :=
  match as_int v with
  | Some m => m =? n
  | None => false
  end.

(** [v == s] for a string literal [s]. *)
Definition eq_str (v : pyval) (s : string) : bool :=
  match v with
  | PStr t => String.eqb t s
  | _ => false
  end.

(** Truth value of an object, as tested by a conditional expression. *)
Definition truthy (v : pyval) : bool :=
  match v with
  | PNone => false
  | PBool b => b
  | PInt n => negb (n =? 0)
  | PStr s => negb (String.eqb s "")
  | PList l => match l with [] => false | _ => true end
  | PDict d => match d with [] => false | _ => true end
  end.

Fixpoint dict_get (d : list (string * pyval)) (k : string) : option pyval :=
  match d with
  | [] => None
  | (k', v) :: d' => if String.eqb k' k then Some v else dict_get d' k
  end.

(** Position [i] of a sequence of [n] items; a negative index counts from
    the end. *)
Definition seq_index (n : nat) (i : Z) : option nat :=
  let j := if i <? 0 then i + Z.of_nat n else i in
  if (0 <=? j) && (j <? Z.of_nat n) then Some (Z.to_nat j) else None.

(** [obj[key]].  A dictionary decoded from JSON has string keys only, so a
    hashable key of another type is never found; a list or a dictionary used
    as a key is unhashable.  Lists and strings want an integer index. *)
Definition getitem (obj key : pyval) : outcome pyval :=
  match obj with
  | PDict d =>
      match key with
      | PStr k =>
          match dict_get d k with
          | Some v => Ok v
          | None => Raise (KeyError key)
          end
      | PList _ | PDict _ => Raise TypeError
      | _ => Raise (KeyError key)
      end
  | PList l =>
      match as_int key with
      | Some i =>
          match seq_index (length l) i with
          | Some j =>
              match nth_error l j with
              | Some v => Ok v
              | None => Raise IndexError
              end
          | None => Raise IndexError
          end
      | None => Raise TypeError
      end
  | PStr s =>
      match as_int key with
      | Some i =>
          match seq_index (String.length s) i with
          | Some j =>
              match String.get j s with
              | Some c => Ok (PStr (String c EmptyString))
              | None => Raise IndexError
              end
          | None => Raise IndexError
          end
      | None => Raise TypeError
      end
  | PNone | PBool _ | PInt _ => Raise TypeError
  end.

(** A chain of subscripts, [obj[k1][k2]...], stops at the first one that
    raises. *)
Definition sub (obj : outcome pyval) (key : pyval) : outcome pyval :=
  v <~ obj ;; getitem v key.

Notation "o .[ k ]" := (sub o k)
  (at level 1, left associativity, format "o .[ k ]") : py_scope.

(** [len(obj)]. *)
Definition len (obj : pyval) : outcome Z :=
  match obj with
  | PStr s => Ok (Z.of_nat (String.length s))
  | PList l => Ok (Z.of_nat (length l))
  | PDict d => Ok (Z.of_nat (length d))
  | PNone | PBool _ | PInt _ => Raise TypeError
  end.

Fixpoint chars (s : string) : list pyval :=
  match s with
  | EmptyString => []
  | String c s' => PStr (String c EmptyString) :: chars s'
  end.

(** The items a [for] loop over [obj] visits. *)
Definition iter (obj : pyval) : outcome (list pyval) :=
  match obj with
  | PList l => Ok l
  | PStr s => Ok (chars s)
  | PDict d => Ok (map (fun kv => PStr (fst kv)) d)
  | PNone | PBool _ | PInt _ => Raise TypeError
  end.

(** ["k" in obj] for a string literal [k]: key membership in a dictionary,
    element membership in a list, substring test in a string. *)
Definition contains (obj : pyval) (k : string) : outcome bool :=
  match obj with
  | PDict d => Ok (match dict_get d k with Some _ => true | None => false end)
  | PList l => Ok (existsb (fun v => eq_str v k) l)
  | PStr s => Ok (match String.index 0 k s with Some _ => true | None => false end)
  | PNone | PBool _ | PInt _ => Raise TypeError
  end.

(** [v // n] for a positive integer literal [n]: floor division, which is
    what [Z.div] computes for a positive divisor. *)
Definition floordiv (v : pyval) (n : Z) : outcome Z :=
  match as_int v with
  | Some m => Ok (m / n)
  | None => Raise TypeError
  end.

(* ===================================================================== *)
(** ** Text of a value: [str] and [repr] *)
(* ===================================================================== *)

Definition str_of_Z (n : Z) : string :=
  NilZero.string_of_int (Z.to_int n).

(** The double quote character. *)
Definition dquote : ascii := ascii_of_nat 34.

Definition hex_digit (n : N) : ascii :=
  ascii_of_N (if (n <? 10)%N then 48 + n else 87 + n)%N.

(** [repr] of a string: single quotes unless the text has a single quote and
    no double quote; backslash, the quote in use and control characters are
    escaped.  Bytes from 128 up belong to a multi-byte character and are
    copied. *)
Fixpoint has_char (c : ascii) (s : string) : bool :=
  match s with
  | EmptyString => false
  | String c' s' => Ascii.eqb c c' || has_char c s'
  end.

Fixpoint escape (q : ascii) (s : string) : string :=
  match s with
  | EmptyString => EmptyString
  | String c s' =>
      let n := N_of_ascii c in
      (if Ascii.eqb c q || Ascii.eqb c "\"%char
       then String "\"%char (String c EmptyString)
       else if (n =? 10)%N then "\n"
       else if (n =? 13)%N then "\r"
       else if (n =? 9)%N then "\t"
       else if ((n <? 32) || (n =? 127))%N
       then String "\"%char (String "x"%char
              (String (hex_digit (n / 16)) (String (hex_digit (n mod 16)) EmptyString)))
       else String c EmptyString) ++ escape q s'
  end.

Definition repr_str (s : string) : string :=
  let q := if has_char "'"%char s && negb (has_char dquote s)
           then dquote else "'"%char in
  String q (escape q s ++ String q EmptyString).

Fixpoint repr (v : pyval) : string :=
  match v with
  | PNone => "None"
  | PBool b => if b then "True" else "False"
  | PInt n => str_of_Z n
  | PStr s => repr_str s
  | PList l =>
      "[" ++ (fix items (l : list pyval) : string :=
                match l with
                | [] => ""
                | [x] => repr x
                | x :: l' => repr x ++ ", " ++ items l'
                end) l ++ "]"
  | PDict d =>
      "{" ++ (fix items (d : list (string * pyval)) : string :=
                match d with
                | [] => ""
                | [(k, x)] => repr_str k ++ ": " ++ repr x
                | (k, x) :: d' => repr_str k ++ ": " ++ repr x ++ ", " ++ items d'
                end) d ++ "}"
  end.

(** [str(v)], which is what an f-string and [Template.substitute] put in
    place of a value. *)
Definition str (v : pyval) : string :=
  match v with
  | PStr s => s
  | _ => repr v
  end.

(* ===================================================================== *)
(** ** [string.Template] *)
(* ===================================================================== *)

(** [Template(t).substitute(name=value, ...)].  A placeholder is [$name] or [${name}]
    with [name] an ASCII identifier, [$$] is a dollar sign, and any other
    use of [$] is a [ValueError]; a name without a value is a [KeyError].
    Values are put in through [str], and the text is read once, left to
    right. *)
Definition is_id_start (c : ascii) : bool :=
  let n := N_of_ascii c in
  ((n =? 95) || ((65 <=? n) && (n <=? 90)) || ((97 <=? n) && (n <=? 122)))%N.

Definition is_id_char (c : ascii) : bool :=
  let n := N_of_ascii c in
  is_id_start c || ((48 <=? n) && (n <=? 57))%N.

Inductive scan : Type :=
| Text
| Dollar
| Named (id : string)
| Braced (id : string).

Definition keyword (kws : list (string * pyval)) (id : string) : outcome string :=
  match dict_get kws id with
  | Some v => Ok (str v)
  | None => Raise (KeyError (PStr id))
  end.

Definition snoc (s : string) (c : ascii) : string := s ++ String c EmptyString.

Fixpoint substitute_from (st : scan) (t : string) (kws : list (string * pyval))
  : outcome string :=
  match t with
  | EmptyString =>
      match st with
      | Text => Ok ""
      | Named id => keyword kws id
      | Dollar | Braced _ => Raise ValueError
      end
  | String c t' =>
      match st with
      | Text =>
          if Ascii.eqb c "$" then substitute_from Dollar t' kws
          else r <~ substitute_from Text t' kws ;; Ok (String c r)
      | Dollar =>
          if Ascii.eqb c "$" then r <~ substitute_from Text t' kws ;; Ok (String c r)
          else if Ascii.eqb c "{" then substitute_from (Braced "") t' kws
          else if is_id_start c then substitute_from (Named (String c "")) t' kws
          else Raise ValueError
      | Named id =>
          if is_id_char c then substitute_from (Named (snoc id c)) t' kws
          else
            v <~ keyword kws id ;;
            if Ascii.eqb c "$"
            then r <~ substitute_from Dollar t' kws ;; Ok (v ++ r)
            else r <~ substitute_from Text t' kws ;; Ok (v ++ String c r)
      | Braced id =>
          if Ascii.eqb c "}" then
            if String.eqb id "" then Raise ValueError
            else v <~ keyword kws id ;;
                 r <~ substitute_from Text t' kws ;; Ok (v ++ r)
          else if (if String.eqb id "" then is_id_start c else is_id_char c)
          then substitute_from (Braced (snoc id c)) t' kws
          else Raise ValueError
      end
  end.

Definition substitute (template : string) (kws : list (string * pyval))
  : outcome string :=
  substitute_from Text template kws.

(* ===================================================================== *)
(** ** Methods that update an object *)
(* ===================================================================== *)

(** A method run on an object in state [S] ends with a value or an
    exception, and in both cases leaves a state behind: property writes made
    before an exception was raised are not undone. *)
Definition M (S A : Type) : Type := S -> outcome A * S.

Definition ret {S A} (a : A) : M S A := fun s => (Ok a, s).

Definition bind {S A B} (m : M S A) (k : A -> M S B) : M S B :=
  fun s =>
    match m s with
    | (Ok a, s') => k a s'
    | (Raise e, s') => (Raise e, s')
    end.

(** Evaluation of an expression that reads no state. *)
Definition eval {S A} (o : outcome A) : M S A := fun s => (o, s).

Definition modify {S} (f : S -> S) : M S unit := fun s => (Ok tt, f s).

Notation "x <- e ;; k" := (bind e (fun x => k))
  (at level 61, e at next level, right associativity) : py_scope.
Notation "' pat <- e ;; k" := (bind e (fun x => match x with pat => k end))
  (at level 61, pat pattern, e at next level, right associativity) : py_scope.
Notation "e ;; k" := (bind e (fun _ => k))
  (at level 61, right associativity) : py_scope.

(** A [for] loop whose body is [body]. *)
Fixpoint for_each {S A} (items : list A) (body : A -> M S unit) : M S unit :=
  match items with
  | [] => ret tt
  | x :: items' => body x ;; for_each items' body
  end.

(* ===================================================================== *)
(** ** [datetime] *)
(* ===================================================================== *)

(** The two calls the program makes into the [datetime] module.  What they
    return depends on the time zone and the locale of the machine, so the
    presenter is defined over any implementation of them. *)
Class DateTime : Type := {
  datetime : Type;
  fromtimestamp : pyval -> outcome datetime;
  strftime : datetime -> string -> outcome string
}.

(* ===================================================================== *)
(** ** [StatusInfo]: the body of the window *)
(* ===================================================================== *)

Module StatusInfo.

(** The properties of the child widgets that [update_status] writes: the
    text of four labels, the value of the progress bar and the rows of the
    server list. *)
Record t : Type := mk {
  status_text : string;
  eta_text : string;
  progress_bar : Z;
  last_backup : string;
  servers : list string;
  connect_status : string
}.

Definition statuses : pyval :=
  PDict [ ("FULL", PStr "Full file backup running.");
          ("INCR", PStr "Incremental file backup running.");
          ("IDLE", PStr "Idle.") ].
Definition status_format : string := "$status $progress".
Definition eta_format : string := "ETA: $time".
Definition last_backup_format : string := "Last backup on $date".
Definition connect_to_local_format : string :=
  "${status}onnected to local UrBackup server.".
Definition last_seen_format : string :=
  "Local server last seen $minutes minutes ago.".

(** [QLabel.setText] on each of the four labels. *)
Definition status_text_setText (s : string) : M t unit :=
  modify (fun w => mk s (eta_text w) (progress_bar w) (last_backup w)
                      (servers w) (connect_status w)).
Definition eta_text_setText (s : string) : M t unit :=
  modify (fun w => mk (status_text w) s (progress_bar w) (last_backup w)
                      (servers w) (connect_status w)).
Definition last_backup_setText (s : string) : M t unit :=
  modify (fun w => mk (status_text w) (eta_text w) (progress_bar w) s
                      (servers w) (connect_status w)).
Definition connect_status_setText (s : string) : M t unit :=
  modify (fun w => mk (status_text w) (eta_text w) (progress_bar w)
                      (last_backup w) (servers w) s).

(** [QProgressBar.setValue].  The bar keeps the range 0..100 it is created
    with, and Qt ignores a value outside the range of the bar.  The argument
    has to be an integer.  One that does not fit a C [int] makes the binding
    raise [OverflowError]; that is not modelled, such a value counts here as
    outside the range, and what is proved of values outside the range is
    proved of those that fit a C [int]. *)
Definition progress_bar_setValue (v : pyval) : M t unit :=
  match as_int v with
  | Some n =>
      if (0 <=? n) && (n <=? 100)
      then modify (fun w => mk (status_text w) (eta_text w) n (last_backup w)
                               (servers w) (connect_status w))
      else ret tt
  | None => eval (Raise TypeError)
  end.

(** [QListWidget.clear] and [QListWidget.addItem] on the server list. *)
Definition servers_clear : M t unit :=
  modify (fun w => mk (status_text w) (eta_text w) (progress_bar w)
                      (last_backup w) [] (connect_status w)).
Definition servers_addItem (s : string) : M t unit :=
  modify (fun w => mk (status_text w) (eta_text w) (progress_bar w)
                      (last_backup w) (servers w ++ [s])%list (connect_status w)).

(** [__init__]: the widgets as they are created.  A new progress bar has
    no value yet, which Qt reports as -1. *)
Definition init : outcome t :=
  idle <~ (Ok statuses).["IDLE"] ;;
  status <~ substitute status_format [("status", idle); ("progress", PStr "")] ;;
  connect <~ substitute connect_to_local_format [("status", PStr "Not c")] ;;
  Ok (mk status "" (-1) "" [] connect).

Section Update.
Context {DT : DateTime}.

Definition update_status (status : pyval) : M t unit :=
  if is_None status then
    status_text_setText "Could not get status!" ;;
    eta_text_setText "" ;;
    progress_bar_setValue 0 ;;
    last_backup_setText "" ;;
    servers_clear ;;
    connect_status_setText "Unknown" ;;
    ret tt
  else
    (* Current status *)
    n <- eval (r <~ (Ok status).["running_processes"] ;; len r) ;;
    '(curr_status, progress, percent, eta) <-
      (if 0 <? n then
         curr_status <- eval (Ok status).["running_processes"].[0].["action"] ;;
         eta <- eval (Ok status).["running_processes"].[0].["eta_ms"] ;;
         percent <- eval (Ok status).["running_processes"].[0].["percent_done"] ;;
         if eq_int percent (-1)
         then ret (curr_status, "Indexing.", PInt 0, eta)
         else ret (curr_status, str percent ++ "% done.", percent, eta)
       else ret (PStr "IDLE", "", PInt 0, PNone)) ;;
    text <- eval (s <~ (Ok statuses).[curr_status] ;;
                  substitute status_format
                    [("status", s); ("progress", PStr progress)]) ;;
    status_text_setText text ;;
    (if negb (is_None eta) && negb (eq_int eta (-1)) then
       text <- eval (h <~ floordiv eta 3600000 ;;
                     m <~ floordiv eta 60000 ;;
                     let eta := str_of_Z h ++ " hours " ++ str_of_Z m ++ " minutes" in
                     substitute eta_format [("time", PStr eta)]) ;;
       eta_text_setText text
     else eta_text_setText "") ;;
    progress_bar_setValue percent ;;
    (* Server and backup information *)
    present <- eval (contains status "last_backup_time") ;;
    last_backup <-
      (if present : bool then
         date <- eval (t <~ (Ok status).["last_backup_time"] ;;
                       d <~ fromtimestamp t ;;
                       strftime d "%m/%d/%Y %I:%M:%S %p") ;;
         ret (Some date)
       else ret None) ;;
    match last_backup with
    | Some date =>
        text <- eval (substitute last_backup_format [("date", PStr date)]) ;;
        last_backup_setText text
    | None => ret tt
    end ;;
    servers_clear ;;
    items <- eval (r <~ (Ok status).["servers"] ;; iter r) ;;
    for_each items (fun server =>
      text <- eval (name <~ (Ok server).["name"] ;;
                    ic <~ (Ok server).["internet_connection"] ;;
                    Ok (str name ++ " (Internet: "
                        ++ (if truthy ic then "Yes" else "No") ++ ")")) ;;
      servers_addItem text) ;;
    internet_status <- eval (Ok status).["internet_status"] ;;
    last_seen <- eval (v <~ (Ok status).["time_since_last_lan_connection"] ;;
                       floordiv v 60000) ;;
    connect_status <- eval
      (if eq_str internet_status "wait_local" then
         Ok "Waiting for local UrBackup server."
       else if eq_str internet_status "no_server" then
         Ok "No servers"
       else
         line1 <~ substitute connect_to_local_format
                    [("status", PStr (if eq_str internet_status "connected_local"
                                      then "C" else "Not c"))] ;;
         line2 <~ substitute last_seen_format [("minutes", PInt last_seen)] ;;
         Ok (line1 ++ String (ascii_of_nat 10) line2)) ;;
    connect_status_setText connect_status.

End Update.
End StatusInfo.

(* ===================================================================== *)
(** ** A [datetime] for a fixed time zone *)
(* ===================================================================== *)

(** An implementation of [DateTime] to run the presenter with: local time is
    UTC plus a fixed offset, the calendar is the proleptic Gregorian one and
    the locale is the C locale, as CPython gives them on Linux.  [strftime]
    knows the directives of the program's format and a few more; another
    directive is a [ValueError] here, whatever the C library of the machine
    does with it. *)
Module FixedZone.

Record date_time : Type := mk {
  year : Z; month : Z; day : Z;
  hour : Z; minute : Z; second : Z
}.

(** Year, month and day of the day that is [z] days after 1970-01-01. *)
Definition civil_from_days (z : Z) : Z * Z * Z :=
  let z := z + 719468 in
  let era := z / 146097 in
  let doe := z - era * 146097 in
  let yoe := (doe - doe / 1460 + doe / 36524 - doe / 146096) / 365 in
  let doy := doe - (365 * yoe + yoe / 4 - yoe / 100) in
  let mp := (5 * doy + 2) / 153 in
  let d := doy - (153 * mp + 2) / 5 + 1 in
  let m := if mp <? 10 then mp + 3 else mp - 9 in
  let y := yoe + era * 400 + (if m <=? 2 then 1 else 0) in
  (y, m, d).

(** The date and the second of the day that the C library's [localtime]
    gives for the time stamp [s]: it fails when the year does not fit the
    [int] it is stored in, counted from 1900, and [datetime] itself holds the
    years 1 to 9999. *)
Definition local_time (offset s : Z) : outcome (Z * Z * Z * Z) :=
  let local := s + offset in
  let '(y, m, d) := civil_from_days (local / 86400) in
  if negb ((- 2147483648 <=? y - 1900) && (y - 1900 <=? 2147483647))
  then Raise OSError
  else if negb ((1 <=? y) && (y <=? 9999)) then Raise ValueError
  else Ok (y, m, d, local mod 86400).

(** [datetime.fromtimestamp(t)].  The time stamp has to fit the 64 bits of
    the platform's [time_t].  To tell the two readings of an hour that a
    change of the clock repeats, [datetime] also looks up the local time of
    one day earlier, which therefore has to exist as well. *)
Definition from_timestamp (offset : Z) (t : pyval) : outcome date_time :=
  match as_int t with
  | None => Raise TypeError
  | Some s =>
      if negb ((- 9223372036854775808 <=? s) && (s <=? 9223372036854775807))
      then Raise OverflowError
      else
        '(y, m, d, r) <~ local_time offset s ;;
        _ <~ local_time offset (s - 86400) ;;
        Ok (mk y m d (r / 3600) (r mod 3600 / 60) (r mod 60))
  end.

Fixpoint zeros (n : nat) : string :=
  match n with
  | O => ""
  | S n' => String "0" (zeros n')
  end.

(** A number that is not negative, padded with zeros to [width] digits. *)
Definition pad (width : nat) (n : Z) : string :=
  let s := str_of_Z n in
  zeros (width - String.length s) ++ s.

(** One directive.  [%Y] is the year as a number, four digits from the
    year 1000 on; the other numbers are padded to two digits. *)
Definition directive (d : date_time) (c : ascii) : outcome string :=
  if Ascii.eqb c "Y" then Ok (str_of_Z (year d))
  else if Ascii.eqb c "m" then Ok (pad 2 (month d))
  else if Ascii.eqb c "d" then Ok (pad 2 (day d))
  else if Ascii.eqb c "H" then Ok (pad 2 (hour d))
  else if Ascii.eqb c "I" then
    Ok (pad 2 (if hour d mod 12 =? 0 then 12 else hour d mod 12))
  else if Ascii.eqb c "M" then Ok (pad 2 (minute d))
  else if Ascii.eqb c "S" then Ok (pad 2 (second d))
  else if Ascii.eqb c "p" then Ok (if hour d <? 12 then "AM" else "PM")
  else if Ascii.eqb c "%" then Ok "%"
  else Raise ValueError.

Fixpoint format (d : date_time) (fmt : string) : outcome string :=
  match fmt with
  | EmptyString => Ok ""
  | String c fmt' =>
      if Ascii.eqb c "%" then
        match fmt' with
        | EmptyString => Raise ValueError
        | String c' fmt'' =>
            s <~ directive d c' ;;
            r <~ format d fmt'' ;;
            Ok (s ++ r)
        end
      else r <~ format d fmt' ;; Ok (String c r)
  end.

Definition lib (offset : Z) : DateTime :=
  {| datetime := date_time;
     fromtimestamp := from_timestamp offset;
     strftime := format |}.

End FixedZone.

(* ===================================================================== *)
(** ** [json.loads] *)
(* ===================================================================== *)

(** The poller hands the output of the control utility to the JSON decoder
    of the Python library; it is defined over any decoder. *)
Class Json : Type := {
  json_loads : string -> outcome pyval
}.

(** A decoder to run the poller with.  It reads the JSON documents whose
    numbers are integers and refuses any other text with [JSONDecodeError];
    a number with a fraction or an exponent and the constants [NaN] and
    [Infinity], which Python decodes to floats, are refused as well, since
    [pyval] has no floats.  An object key that occurs twice keeps its first
    place and its last value, as in a Python dictionary.  The text is taken
    as it is: a byte order mark is refused, and bytes that are no UTF-8 are
    not.  The decoder is run on the sample texts only; what is proved of the
    poller is proved for any decoder. *)
Module Decoder.

Definition is_ws (c : ascii) : bool :=
  let n := N_of_ascii c in
  ((n =? 32) || (n =? 9) || (n =? 10) || (n =? 13))%N.

Fixpoint skip_ws (s : string) : string :=
  match s with
  | String c s' => if is_ws c then skip_ws s' else s
  | EmptyString => s
  end.

Definition is_digit (c : ascii) : bool :=
  let n := N_of_ascii c in ((48 <=? n) && (n <=? 57))%N.

Definition digit_val (c : ascii) : Z := Z.of_N (N_of_ascii c) - 48.

Fixpoint strip_prefix (p s : string) : option string :=
  match p, s with
  | EmptyString, _ => Some s
  | String a p', String b s' => if Ascii.eqb a b then strip_prefix p' s' else None
  | String _ _, EmptyString => None
  end.

Fixpoint digits (acc : Z) (s : string) : Z * string :=
  match s with
  | String c s' => if is_digit c then digits (10 * acc + digit_val c) s' else (acc, s)
  | EmptyString => (acc, s)
  end.

(** After the integer part: does a fraction or an exponent follow? *)
Definition float_follows (s : string) : bool :=
  match s with
  | String c (String d s') =>
      (Ascii.eqb c "." && is_digit d)
      || ((Ascii.eqb c "e" || Ascii.eqb c "E")
          && (is_digit d
              || ((Ascii.eqb d "+" || Ascii.eqb d "-")
                  && match s' with String e _ => is_digit e | EmptyString => false end)))
  | _ => false
  end.

(** The digits of a number, after its sign. *)
Definition natural (s : string) : outcome (Z * string) :=
  match s with
  | String c s' =>
      if Ascii.eqb c "0" then
        if float_follows s' then Raise JSONDecodeError else Ok (0, s')
      else if is_digit c then
        let '(n, r) := digits (digit_val c) s' in
        if float_follows r then Raise JSONDecodeError else Ok (n, r)
      else Raise JSONDecodeError
  | EmptyString => Raise JSONDecodeError
  end.

Definition hex_val (c : ascii) : option N :=
  let n := N_of_ascii c in
  if ((48 <=? n) && (n <=? 57))%N then Some (n - 48)%N
  else if ((65 <=? n) && (n <=? 70))%N then Some (n - 55)%N
  else if ((97 <=? n) && (n <=? 102))%N then Some (n - 87)%N
  else None.

Definition hex4 (s : string) : option (N * string) :=
  match s with
  | String a (String b (String c (String d r))) =>
      match hex_val a, hex_val b, hex_val c, hex_val d with
      | Some x, Some y, Some z, Some w => Some (((x * 16 + y) * 16 + z) * 16 + w, r)%N
      | _, _, _, _ => None
      end
  | _ => None
  end.

Definition byte (n : N) : string := String (ascii_of_N n) EmptyString.

Definition utf8 (cp : N) : string :=
  (if cp <? 128 then byte cp
   else if cp <? 2048 then byte (192 + cp / 64) ++ byte (128 + cp mod 64)
   else if cp <? 65536 then
     byte (224 + cp / 4096) ++ byte (128 + cp / 64 mod 64) ++ byte (128 + cp mod 64)
   else
     byte (240 + cp / 262144) ++ byte (128 + cp / 4096 mod 64)
     ++ byte (128 + cp / 64 mod 64) ++ byte (128 + cp mod 64))%N.

(** The code point written [\uXXXX], a surrogate pair counting as one. *)
Definition unicode_escape (s : string) : outcome (N * string) :=
  match hex4 s with
  | None => Raise JSONDecodeError
  | Some (hi, r) =>
      if ((55296 <=? hi) && (hi <=? 56319))%N then
        match strip_prefix "\u" r with
        | Some r' =>
            match hex4 r' with
            | Some (lo, r'') =>
                if ((56320 <=? lo) && (lo <=? 57343))%N
                then Ok (65536 + (hi - 55296) * 1024 + (lo - 56320), r'')%N
                else Ok (hi, r)
            | None => Ok (hi, r)
            end
        | None => Ok (hi, r)
        end
      else Ok (hi, r)
  end.

Definition simple_escape (c : ascii) : option N :=
  if Ascii.eqb c dquote then Some 34%N
  else if Ascii.eqb c "\" then Some 92%N
  else if Ascii.eqb c "/" then Some 47%N
  else if Ascii.eqb c "b" then Some 8%N
  else if Ascii.eqb c "f" then Some 12%N
  else if Ascii.eqb c "n" then Some 10%N
  else if Ascii.eqb c "r" then Some 13%N
  else if Ascii.eqb c "t" then Some 9%N
  else None.

(** The text of a string, from after its opening quote to its closing
    quote.  [fuel] bounds the number of characters and escapes read. *)
Fixpoint text (fuel : nat) (s : string) : outcome (string * string) :=
  match fuel with
  | O => Raise JSONDecodeError
  | S fuel' =>
      match s with
      | EmptyString => Raise JSONDecodeError
      | String c s' =>
          if Ascii.eqb c dquote then Ok ("", s')
          else if Ascii.eqb c "\" then
            match s' with
            | EmptyString => Raise JSONDecodeError
            | String e s'' =>
                if Ascii.eqb e "u" then
                  '(cp, r) <~ unicode_escape s'' ;;
                  '(t, r') <~ text fuel' r ;;
                  Ok (utf8 cp ++ t, r')
                else
                  match simple_escape e with
                  | Some n =>
                      '(t, r') <~ text fuel' s'' ;;
                      Ok (String (ascii_of_N n) t, r')
                  | None => Raise JSONDecodeError
                  end
            end
          else if (N_of_ascii c <? 32)%N then Raise JSONDecodeError
          else '(t, r) <~ text fuel' s' ;; Ok (String c t, r)
      end
  end.

Fixpoint dict_set (d : list (string * pyval)) (k : string) (v : pyval)
  : list (string * pyval) :=
  match d with
  | [] => [(k, v)]
  | (k', v') :: d' =>
      if String.eqb k' k then (k', v) :: d' else (k', v') :: dict_set d' k v
  end.

(** One value at the head of [s], and what follows it. *)
Fixpoint value (fuel : nat) (s : string) : outcome (pyval * string) :=
  match fuel with
  | O => Raise JSONDecodeError
  | S fuel' =>
      match s with
      | EmptyString => Raise JSONDecodeError
      | String c s' =>
          if Ascii.eqb c dquote then
            '(t, r) <~ text fuel' s' ;; Ok (PStr t, r)
          else if Ascii.eqb c "{" then
            match skip_ws s' with
            | String c' r =>
                if Ascii.eqb c' "}" then Ok (PDict [], r)
                else members fuel' (skip_ws s') []
            | EmptyString => Raise JSONDecodeError
            end
          else if Ascii.eqb c "[" then
            match skip_ws s' with
            | String c' r =>
                if Ascii.eqb c' "]" then Ok (PList [], r)
                else elements fuel' (skip_ws s') []
            | EmptyString => Raise JSONDecodeError
            end
          else if Ascii.eqb c "-" then
            '(n, r) <~ natural s' ;; Ok (PInt (- n), r)
          else if is_digit c then
            '(n, r) <~ natural s ;; Ok (PInt n, r)
          else
            match strip_prefix "null" s, strip_prefix "true" s, strip_prefix "false" s with
            | Some r, _, _ => Ok (PNone, r)
            | _, Some r, _ => Ok (PBool true, r)
            | _, _, Some r => Ok (PBool false, r)
            | None, None, None => Raise JSONDecodeError
            end
      end
  end
with members (fuel : nat) (s : string) (acc : list (string * pyval))
  : outcome (pyval * string) :=
  match fuel with
  | O => Raise JSONDecodeError
  | S fuel' =>
      match s with
      | String c s' =>
          if Ascii.eqb c dquote then
            '(k, r) <~ text fuel' s' ;;
            match skip_ws r with
            | String c' r' =>
                if Ascii.eqb c' ":" then
                  '(v, r'') <~ value fuel' (skip_ws r') ;;
                  match skip_ws r'' with
                  | String c'' r''' =>
                      if Ascii.eqb c'' "," then
                        members fuel' (skip_ws r''') (dict_set acc k v)
                      else if Ascii.eqb c'' "}" then
                        Ok (PDict (dict_set acc k v), r''')
                      else Raise JSONDecodeError
                  | EmptyString => Raise JSONDecodeError
                  end
                else Raise JSONDecodeError
            | EmptyString => Raise JSONDecodeError
            end
          else Raise JSONDecodeError
      | EmptyString => Raise JSONDecodeError
      end
  end
with elements (fuel : nat) (s : string) (acc : list pyval)
  : outcome (pyval * string) :=
  match fuel with
  | O => Raise JSONDecodeError
  | S fuel' =>
      '(v, r) <~ value fuel' s ;;
      match skip_ws r with
      | String c r' =>
          if Ascii.eqb c "," then elements fuel' (skip_ws r') (acc ++ [v])%list
          else if Ascii.eqb c "]" then Ok (PList (acc ++ [v])%list, r')
          else Raise JSONDecodeError
      | EmptyString => Raise JSONDecodeError
      end
  end.

(** A whole document: one value, with white space around it and nothing
    else.  Every step of the decoder reads at least one character, so the
    length of the text bounds the number of steps. *)
Definition loads (s : string) : outcome pyval :=
  '(v, r) <~ value (2 * String.length s + 2) (skip_ws s) ;;
  match skip_ws r with
  | EmptyString => Ok v
  | String _ _ => Raise JSONDecodeError
  end.

Definition lib : Json := {| json_loads := loads |}.

End Decoder.

(* ===================================================================== *)
(** ** The machine *)
(* ===================================================================== *)

(** What [subprocess.run(..., capture_output=True)] returns. *)
Record CompletedProcess : Type := {
  returncode : Z;
  stdout : string
}.

(** The surroundings of the program: the platform name, what running a
    command does (the [n]-th command run may fare differently from the one
    before, the daemon having moved on; a command that cannot be started
    raises), and a log of what the program did to them: the commands it ran,
    the message boxes it showed and the lines it printed, oldest first. *)
Record Machine : Type := {
  sys_platform : string;
  programs : nat -> list string -> outcome CompletedProcess;
  calls : list (list string);
  dialogs : list (string * string);
  printed : list string
}.

Definition subprocess_run (argv : list string) : M Machine CompletedProcess :=
  fun m =>
    (programs m (length (calls m)) argv,
     {| sys_platform := sys_platform m;
        programs := programs m;
        calls := (calls m ++ [argv])%list;
        dialogs := dialogs m;
        printed := printed m |}).

Definition QMessageBox_critical (title text : string) : M Machine unit :=
  modify (fun m =>
    {| sys_platform := sys_platform m;
       programs := programs m;
       calls := calls m;
       dialogs := (dialogs m ++ [(title, text)])%list;
       printed := printed m |}).

Definition print (line : string) : M Machine unit :=
  modify (fun m =>
    {| sys_platform := sys_platform m;
       programs := programs m;
       calls := calls m;
       dialogs := dialogs m;
       printed := (printed m ++ [line])%list |}).

Definition sys_exit {A} (code : Z) : M Machine A := eval (Raise (SystemExit code)).

(** Reading [sys.platform]. *)
Definition platform : M Machine string := fun m => (Ok (sys_platform m), m).

(** [try: body except FileNotFoundError: handler]. *)
Definition except_FileNotFoundError {S A} (body handler : M S A) : M S A :=
  fun s =>
    match body s with
    | (Raise FileNotFoundError, s') => handler s'
    | r => r
    end.

(* ===================================================================== *)
(** ** The Qt binding *)
(* ===================================================================== *)

(** The program imports Qt through [qtpy], which loads whichever binding is
    installed.  The bindings differ in two things the program depends on:
    what the slots of [Signal(dict)] receive when an object is emitted, and
    what becomes of an exception that leaves a slot.  The program is
    therefore defined over any binding. *)
Class Binding : Type := {
  (** The argument the slots are called with when [v] is emitted; when the
      object cannot be converted, [emit] raises. *)
  received : pyval -> outcome pyval;
  (** A dictionary arrives as it was emitted. *)
  received_dict : forall d, received (PDict d) = Ok (PDict d);
  (** What the emission does once a slot has raised [e]: it goes on with
      the next slot ([Ok tt]), or it ends with an exception. *)
  slot_raised : exn -> outcome unit
}.

Module Bindings.

(** A binding that hands [none] to the slots when [None] is emitted and
    every other object as it is, and that prints the exception of a slot and
    goes on.  With [None] for [none] this is what PySide2 does, with an
    empty dictionary what PySide6 does, which converts the argument to the
    declared type of the signal.  What a binding makes of an object that is
    neither [None] nor a dictionary is not modelled: here it is handed on
    as it is, and nothing below depends on it. *)
Definition lenient (none : pyval) : Binding :=
  {| received := fun v => Ok (match v with PNone => none | _ => v end);
     received_dict := fun d => eq_refl;
     slot_raised := fun _ => Ok tt |}.

Definition PySide2 : Binding := lenient PNone.
Definition PySide6 : Binding := lenient (PDict []).

End Bindings.

(* ===================================================================== *)
(** ** [App]: the main window, the tray icon and the poller *)
(* ===================================================================== *)

Module App.

(** The keys of [self.icons]; each stands for the image loaded for it. *)
Inductive icon : Type :=
| not_connected
| connected
| busy.

Definition icon_file (i : icon) : string :=
  match i with
  | not_connected => "database_red.png"
  | connected => "database_white.png"
  | busy => "database_yellow.png"
  end.

(** The window: its own icon, the icon in the tray, the body of the window
    and the interval of the update timer once it runs. *)
Record t : Type := mk {
  window_icon : icon;
  tray_icon : icon;
  status_info : StatusInfo.t;
  update_timer : option Z
}.

Definition setWindowIcon (i : icon) : M t unit :=
  modify (fun a => mk i (tray_icon a) (status_info a) (update_timer a)).
Definition tray_icon_setIcon (i : icon) : M t unit :=
  modify (fun a => mk (window_icon a) i (status_info a) (update_timer a)).
Definition update_timer_start (msec : Z) : M t unit :=
  modify (fun a => mk (window_icon a) (tray_icon a) (status_info a) (Some msec)).

(** A method of the body of the window, run from the window. *)
Definition in_status_info {A} (m : M StatusInfo.t A) : M t A :=
  fun a =>
    let '(r, s) := m (status_info a) in
    (r, mk (window_icon a) (tray_icon a) s (update_timer a)).

Definition update_tray (status : pyval) : M t unit :=
  if is_None status then
    tray_icon_setIcon not_connected ;;
    setWindowIcon not_connected ;;
    ret tt
  else
    internet_status <- eval (Ok status).["internet_status"] ;;
    n <- eval (r <~ (Ok status).["running_processes"] ;; len r) ;;
    if 0 <? n then
      tray_icon_setIcon busy ;;
      setWindowIcon busy
    else if eq_str internet_status "connected_local" then
      tray_icon_setIcon connected ;;
      setWindowIcon connected
    else
      tray_icon_setIcon not_connected ;;
      setWindowIcon not_connected.

Section Poll.
Context {DT : DateTime} {JS : Json} {QT : Binding}.

Definition get_status : M Machine pyval :=
  result <- subprocess_run ["urbackupclientctl"; "status"] ;;
  if negb (returncode result =? 0) then ret PNone
  else eval (json_loads (stdout result)).

(** The program as a whole: the machine and the window. *)
Definition on_machine {A} (m : M Machine A) : M (Machine * t) A :=
  fun s => let '(r, mc) := m (fst s) in (r, (mc, snd s)).
Definition on_window {A} (m : M t A) : M (Machine * t) A :=
  fun s => let '(r, a) := m (snd s) in (r, (fst s, a)).

(** A slot called by the binding: what the slot has written stays
    written, and of an exception the emission sees what the binding makes of
    it. *)
Definition slot {S} (m : M S unit) : M S unit :=
  fun s =>
    match m s with
    | (Ok _, s') => (Ok tt, s')
    | (Raise e, s') => (slot_raised e, s')
    end.

(** [self.status.emit(status)]: the object is converted for the slots,
    which run in the order they were connected, the tray first. *)
Definition status_emit (status : pyval) : M (Machine * t) unit :=
  v <- eval (received status) ;;
  on_window (slot (update_tray v)) ;;
  on_window (slot (in_status_info (StatusInfo.update_status v))).

(** One tick of the update timer. *)
Definition update_status : M (Machine * t) unit :=
  status <- on_machine get_status ;;
  status_emit status.

(** [__init__], up to the start of the timer.  [sys.exit] is the
    [SystemExit] exception; the window that is returned is the one that
    [window.show()] puts on screen. *)
Definition init : M Machine t :=
  name <- platform ;;
  (if String.eqb name "win32" then
     QMessageBox_critical "Not supported" "Windows is currently not supported" ;;
     sys_exit 1
   else ret tt) ;;
  except_FileNotFoundError
    (get_status ;; ret tt)
    (QMessageBox_critical "UrBackup Error"
       "Could not find the UrBackup control executable!" ;;
     sys_exit 1) ;;
  body <- eval StatusInfo.init ;;
  fun m =>
    let window := mk not_connected not_connected body None in
    let '(r, (m', window')) :=
      ((* Perform initial update *)
       update_status ;;
       (* Start update timer *)
       on_window (update_timer_start 5000)) (m, window) in
    (match r with Ok _ => Ok window' | Raise e => Raise e end, m').

End Poll.
End App.

(* ===================================================================== *)
(** ** [urbackup-gui.py]: the other entry point *)
(* ===================================================================== *)

Module Gui.

Record t : Type := mk {
  window_title : string;
  cmd : string
}.

Definition init : M Machine t :=
  name <- platform ;;
  let cmd := if String.prefix "win32" name
             then "UrBackupClient_cmd" else "urbackupclientctl" in
  print cmd ;;
  ret (mk "UrBackup Control Panel" cmd).

End Gui.

(* ===================================================================== *)
(** ** The status snapshot of the specification *)
(* ===================================================================== *)

(** The data model of the specification (section 3): the fields of a
    snapshot with their types, and [read], which recognises the decoded
    documents that have them.  A document may carry other keys besides, as
    the output of the control utility does.  [eta_ms] may also be [null],
    which is read as no estimate. *)
Module Snapshot.

Inductive action_t : Type := FULL | INCR | IDLE.

Record process : Type := mk_process {
  action : action_t;
  eta_ms : option Z;
  percent_done : Z
}.

Record server : Type := mk_server {
  name : string;
  internet_connection : bool
}.

Record t : Type := mk {
  running_processes : list process;
  last_backup_time : option Z;
  servers : list server;
  internet_status : string;
  time_since_last_lan_connection : Z
}.

Definition read_action (v : pyval) : option action_t :=
  match v with
  | PStr s =>
      if String.eqb s "FULL" then Some FULL
      else if String.eqb s "INCR" then Some INCR
      else if String.eqb s "IDLE" then Some IDLE
      else None
  | _ => None
  end.

Definition read_process (v : pyval) : option process :=
  match v with
  | PDict d =>
      match dict_get d "action", dict_get d "eta_ms", dict_get d "percent_done" with
      | Some a, Some e, Some (PInt p) =>
          match read_action a, e with
          | Some a', PInt n => Some (mk_process a' (Some n) p)
          | Some a', PNone => Some (mk_process a' None p)
          | _, _ => None
          end
      | _, _, _ => None
      end
  | _ => None
  end.

Definition read_server (v : pyval) : option server :=
  match v with
  | PDict d =>
      match dict_get d "name", dict_get d "internet_connection" with
      | Some (PStr n), Some (PBool b) => Some (mk_server n b)
      | _, _ => None
      end
  | _ => None
  end.

Fixpoint read_all {A} (f : pyval -> option A) (l : list pyval) : option (list A) :=
  match l with
  | [] => Some []
  | v :: l' =>
      match f v, read_all f l' with
      | Some a, Some r => Some (a :: r)
      | _, _ => None
      end
  end.

Definition read (v : pyval) : option t :=
  match v with
  | PDict d =>
      match dict_get d "running_processes", dict_get d "servers",
            dict_get d "internet_status",
            dict_get d "time_since_last_lan_connection" with
      | Some (PList ps), Some (PList ss), Some (PStr i), Some (PInt t) =>
          match read_all read_process ps, read_all read_server ss with
          | Some ps', Some ss' =>
              match dict_get d "last_backup_time" with
              | None => Some (mk ps' None ss' i t)
              | Some (PInt b) => Some (mk ps' (Some b) ss' i t)
              | Some _ => None
              end
          | _, _ => None
          end
      | _, _, _, _ => None
      end
  | _ => None
  end.

End Snapshot.

(** The rendering rules as the specification words them (sections 4.2 and
    4.3), each a function of the snapshot.  They are what the presenters of
    the source are compared with. *)
Module Spec.
Import Snapshot.

Definition action_text (a : action_t) : string :=
  match a with
  | FULL => "Full file backup running."
  | INCR => "Incremental file backup running."
  | IDLE => "Idle."
  end.

Definition progress_text (percent : Z) : string :=
  if percent =? -1 then "Indexing." else str_of_Z percent ++ "% done.".

Definition progress_value (percent : Z) : Z :=
  if percent =? -1 then 0 else percent.

Definition status_line (s : t) : string :=
  match running_processes s with
  | [] => "Idle. "
  | p :: _ => action_text (action p) ++ " " ++ progress_text (percent_done p)
  end.

Definition eta_time (eta : Z) : string :=
  str_of_Z (eta / 3600000) ++ " hours " ++ str_of_Z (eta / 60000) ++ " minutes".

Definition eta_line (s : t) : string :=
  match running_processes s with
  | [] => ""
  | p :: _ =>
      match eta_ms p with
      | Some eta => if eta =? -1 then "" else "ETA: " ++ eta_time eta
      | None => ""
      end
  end.

Definition bar_value (s : t) : Z :=
  match running_processes s with
  | [] => 0
  | p :: _ => progress_value (percent_done p)
  end.

Definition server_line (sv : server) : string :=
  name sv ++ " (Internet: " ++ (if internet_connection sv then "Yes" else "No") ++ ")".

Definition newline : string := String (ascii_of_nat 10) EmptyString.

Definition connect_line (s : t) : string :=
  if String.eqb (internet_status s) "wait_local" then
    "Waiting for local UrBackup server."
  else if String.eqb (internet_status s) "no_server" then
    "No servers"
  else
    (if String.eqb (internet_status s) "connected_local"
     then "Connected to local UrBackup server."
     else "Not connected to local UrBackup server.")
    ++ newline
    ++ "Local server last seen "
    ++ str_of_Z (time_since_last_lan_connection s / 60000) ++ " minutes ago.".

(** The three-way choice of the icon, from whether the input is [None],
    whether a process is running and the internet status. *)
Definition choose_icon (is_none has_running_process : bool)
    (internet_status : pyval) : App.icon :=
  if is_none then App.not_connected
  else if has_running_process then App.busy
  else if eq_str internet_status "connected_local" then App.connected
  else App.not_connected.



End Spec.

(** The text [datetime] gives for a time stamp in the program's format. *)
Definition date_text {DT : DateTime} (t : Z) : outcome string :=
  d <~ fromtimestamp (PInt t) ;; strftime d "%m/%d/%Y %I:%M:%S %p".

(** A snapshot whose time of the last backup, if it has one, has a date. *)
Definition dated {DT : DateTime} (s : Snapshot.t) : bool :=
  match Snapshot.last_backup_time s with
  | None => true
  | Some t => match date_text t with Ok _ => true | Raise _ => false end
  end.

(* ===================================================================== *)
(** ** Sample inputs *)
(* ===================================================================== *)

(** Decoded documents and machines to run the program on. *)
Module Sample.

(** The body of the window as [StatusInfo.__init__] leaves it. *)
Definition initial : StatusInfo.t :=
  StatusInfo.mk "Idle. " "" (-1) "" [] "Not connected to local UrBackup server.".

Definition window : App.t :=
  App.mk App.not_connected App.not_connected initial None.

Definition srv1 : pyval :=
  PDict [("name", PStr "srv1"); ("internet_connection", PBool true)].

(** An incremental backup under way, 42 percent done, with an estimate of
    7 260 000 ms; the last backup ended on 14 November 2023. *)
Definition backing_up : pyval :=
  PDict [ ("running_processes",
           PList [PDict [ ("action", PStr "INCR");
                          ("eta_ms", PInt 7260000);
                          ("percent_done", PInt 42);
                          ("process_id", PInt 3) ]]);
          ("last_backup_time", PInt 1700000000);
          ("servers", PList [srv1]);
          ("internet_status", PStr "connected_local");
          ("time_since_last_lan_connection", PInt 120000) ].

(** The file list is being built: no percentage yet and no estimate. *)
Definition indexing : pyval :=
  PDict [ ("running_processes",
           PList [PDict [ ("action", PStr "FULL");
                          ("eta_ms", PInt (-1));
                          ("percent_done", PInt (-1)) ]]);
          ("servers", PList [srv1]);
          ("internet_status", PStr "connected_local");
          ("time_since_last_lan_connection", PInt 0) ].

(** Nothing running and no backup made so far: the scenario of section 8 of
    the specification. *)
Definition idle : pyval :=
  PDict [ ("running_processes", PList []);
          ("servers", PList [srv1]);
          ("internet_status", PStr "connected_local");
          ("time_since_last_lan_connection", PInt 120000) ].

(** A process that reports no [eta_ms]. *)
Definition no_eta : pyval :=
  PDict [ ("running_processes",
           PList [PDict [ ("action", PStr "FULL"); ("percent_done", PInt 5) ]]);
          ("servers", PList [srv1]);
          ("internet_status", PStr "connected_local");
          ("time_since_last_lan_connection", PInt 0) ].

(** A process whose action is none of the three the window knows. *)
Definition image_backup : pyval :=
  PDict [ ("running_processes",
           PList [PDict [ ("action", PStr "FULLI");
                          ("eta_ms", PInt 60000);
                          ("percent_done", PInt 10) ]]);
          ("servers", PList [srv1]);
          ("internet_status", PStr "connected_local");
          ("time_since_last_lan_connection", PInt 0) ].

(** The same inputs as the specification types them. *)
Definition backing_up_snapshot : Snapshot.t :=
  Snapshot.mk [Snapshot.mk_process Snapshot.INCR (Some 7260000) 42]
    (Some 1700000000) [Snapshot.mk_server "srv1" true] "connected_local" 120000.

Definition indexing_snapshot : Snapshot.t :=
  Snapshot.mk [Snapshot.mk_process Snapshot.FULL (Some (-1)) (-1)]
    None [Snapshot.mk_server "srv1" true] "connected_local" 0.

Definition idle_snapshot : Snapshot.t :=
  Snapshot.mk [] None [Snapshot.mk_server "srv1" true] "connected_local" 120000.

(** The text of [idle] as the control utility prints it. *)
Definition quoted (s : string) : string :=
  String dquote (s ++ String dquote EmptyString).

Definition idle_document : string :=
  "{" ++ quoted "running_processes" ++ ":[],"
  ++ quoted "servers" ++ ":[{" ++ quoted "name" ++ ":" ++ quoted "srv1" ++ ","
  ++ quoted "internet_connection" ++ ":true}],"
  ++ quoted "internet_status" ++ ":" ++ quoted "connected_local" ++ ","
  ++ quoted "time_since_last_lan_connection" ++ ":120000}".

(** A machine with nothing logged yet, on which every command ends with the
    given return code and output. *)
Definition machine (platform : string) (code : Z) (out : string) : Machine :=
  {| sys_platform := platform;
     programs := fun _ _ => Ok {| returncode := code; stdout := out |};
     calls := [];
     dialogs := [];
     printed := [] |}.

End Sample.

(* ===================================================================== *)
(** ** The timer at work *)
(* ===================================================================== *)

(** [update_timer.timeout] is connected to [update_status] and the timer is
    started with an interval of 5000 ms: as long as the program runs,
    [update_status] is called again and again, each call starting from the
    machine and the window the one before left, however that one ended. *)
Fixpoint ticks {DT : DateTime} {JS : Json} {QT : Binding} (n : nat)
    (s : Machine * App.t) : Machine * App.t :=
  match n with
  | O => s
  | S n' => ticks n' (snd (App.update_status s))
  end.


(* ===================================================================== *)
(** ** The window on the desktop *)
(* ===================================================================== *)

(** The rest of [App]: what the window does when it is closed, minimized or
    called back from the tray.  The state is that of [App.t] together with
    the flag [__closing] and the two facts about a top-level window that the
    methods test and change: whether it is shown, and whether its window
    state is minimized. *)
Module Window.

Record t : Type := mk {
  app : App.t;
  closing : bool;
  visible : bool;
  minimized : bool
}.

(** The window as [__init__] and [window.show()] put it on screen. *)
Definition shown (a : App.t) : t := mk a false true false.

(** [QWidget.show] and [QWidget.hide] change whether the window is shown and
    leave its window state alone; [QWidget.isMinimized] reads the state. *)
Definition show : M t unit :=
  modify (fun w => mk (app w) (closing w) true (minimized w)).
Definition hide : M t unit :=
  modify (fun w => mk (app w) (closing w) false (minimized w)).
Definition isMinimized : M t bool := fun w => (Ok (minimized w), w).

(** [update_timer.stop()]: the timer no longer runs. *)
Definition update_timer_stop : M t unit :=
  modify (fun w =>
    mk (App.mk (App.window_icon (app w)) (App.tray_icon (app w))
          (App.status_info (app w)) None)
       (closing w) (visible w) (minimized w)).

Definition set_closing (b : bool) : M t unit :=
  modify (fun w => mk (app w) b (visible w) (minimized w)).
Definition get_closing : M t bool := fun w => (Ok (closing w), w).

(** [QEvent.WindowStateChange], by its number in [QEvent.Type]. *)
Definition WindowStateChange : N := 105.

(** [QSystemTrayIcon.ActivationReason]. *)
Inductive ActivationReason : Type :=
| Unknown
| Context
| DoubleClick
| Trigger
| MiddleClick.

Section Desktop.

(** [QSystemTrayIcon.isSystemTrayAvailable()]: whether the desktop has a
    tray. *)
Variable isSystemTrayAvailable : bool.

(** An event handler returns whether it left the event accepted
    ([event.accept()]) or ignored ([event.ignore()]). *)
Definition closeEvent : M t bool :=
  c <- get_closing ;;
  if c || negb isSystemTrayAvailable then
    (* Closing steps *)
    update_timer_stop ;;
    ret true
  else
    hide ;;
    ret false.

Definition changeEvent (event_type : N) : M t bool :=
  m <- isMinimized ;;
  if (event_type =? WindowStateChange)%N && isSystemTrayAvailable && m then
    hide ;;
    ret false
  else ret true.

(** [QWidget.close]: the window is sent a close event, and is hidden if the
    handler accepts it; the result tells whether it did. *)
Definition close : M t bool :=
  accepted <- closeEvent ;;
  if accepted : bool then hide ;; ret true else ret false.

(** [QWidget.showNormal]: the window state loses its minimized flag, of
    which the window is told by a [WindowStateChange] event, and the window
    is shown. *)
Definition showNormal : M t unit :=
  m <- isMinimized ;;
  (if m : bool then
     modify (fun w => mk (app w) (closing w) (visible w) false) ;;
     changeEvent WindowStateChange ;;
     ret tt
   else ret tt) ;;
  show.

Definition close_app : M t unit :=
  set_closing true ;;
  show ;;
  close ;;
  ret tt.

Definition open_and_show : M t unit :=
  show ;;
  m <- isMinimized ;;
  if m : bool then showNormal else ret tt.

Definition tray_activated (reason : ActivationReason) : M t unit :=
  match reason with
  | Trigger => open_and_show
  | _ => ret tt
  end.

(** The user minimizes the window: the window system sets the minimized
    flag, and the window is told by a [WindowStateChange] event. *)
Definition minimize : M t unit :=
  modify (fun w => mk (app w) (closing w) (visible w) true) ;;
  changeEvent WindowStateChange ;;
  ret tt.

(** What the user can do to the window and to the icon in the tray: press
    the close button of the window, minimize it, activate the tray icon, and
    pick "Open" or "Exit" from the menu of the tray icon. *)
Inductive action : Type :=
| CloseButton
| Minimize
| Activate (reason : ActivationReason)
| MenuOpen
| MenuExit.

Definition perform (a : action) : M t unit :=
  match a with
  | CloseButton => close ;; ret tt
  | Minimize => minimize
  | Activate reason => tray_activated reason
  | MenuOpen => open_and_show
  | MenuExit => close_app
  end.

(** The window after a series of actions. *)
Fixpoint after (actions : list action) (w : t) : t :=
  match actions with
  | [] => w
  | a :: actions' => after actions' (snd (perform a w))
  end.

End Desktop.
End Window.

(* ===================================================================== *)
(** ** The two parts of [StatusInfo.update_status] *)
(* ===================================================================== *)

(** For a status that is not [None] the method has two parts, which the
    source heads [# Current status] and [# Server and backup information].
    The second part uses nothing the first has computed.  Each is given here
    on its own, word for word as it stands in [StatusInfo.update_status];
    [update_status_parts] shows that the method is the first part followed by
    the second. *)
Module Part.
Section Part.
Context {DT : DateTime}.

Definition current_status (status : pyval) : M StatusInfo.t unit :=
  n <- eval (r <~ (Ok status).["running_processes"] ;; len r) ;;
  '(curr_status, progress, percent, eta) <-
    (if 0 <? n then
       curr_status <- eval (Ok status).["running_processes"].[0].["action"] ;;
       eta <- eval (Ok status).["running_processes"].[0].["eta_ms"] ;;
       percent <- eval (Ok status).["running_processes"].[0].["percent_done"] ;;
       if eq_int percent (-1)
       then ret (curr_status, "Indexing.", PInt 0, eta)
       else ret (curr_status, str percent ++ "% done.", percent, eta)
     else ret (PStr "IDLE", "", PInt 0, PNone)) ;;
  text <- eval (s <~ (Ok StatusInfo.statuses).[curr_status] ;;
                substitute StatusInfo.status_format
                  [("status", s); ("progress", PStr progress)]) ;;
  StatusInfo.status_text_setText text ;;
  (if negb (is_None eta) && negb (eq_int eta (-1)) then
     text <- eval (h <~ floordiv eta 3600000 ;;
                   m <~ floordiv eta 60000 ;;
                   let eta := str_of_Z h ++ " hours " ++ str_of_Z m ++ " minutes" in
                   substitute StatusInfo.eta_format [("time", PStr eta)]) ;;
     StatusInfo.eta_text_setText text
   else StatusInfo.eta_text_setText "") ;;
  StatusInfo.progress_bar_setValue percent.

Definition server_and_backup_information (status : pyval) : M StatusInfo.t unit :=
  present <- eval (contains status "last_backup_time") ;;
  last_backup <-
    (if present : bool then
       date <- eval (t <~ (Ok status).["last_backup_time"] ;;
                     d <~ fromtimestamp t ;;
                     strftime d "%m/%d/%Y %I:%M:%S %p") ;;
       ret (Some date)
     else ret None) ;;
  match last_backup with
  | Some date =>
      text <- eval (substitute StatusInfo.last_backup_format [("date", PStr date)]) ;;
      StatusInfo.last_backup_setText text
  | None => ret tt
  end ;;
  StatusInfo.servers_clear ;;
  items <- eval (r <~ (Ok status).["servers"] ;; iter r) ;;
  for_each items (fun server =>
    text <- eval (name <~ (Ok server).["name"] ;;
                  ic <~ (Ok server).["internet_connection"] ;;
                  Ok (str name ++ " (Internet: "
                      ++ (if truthy ic then "Yes" else "No") ++ ")")) ;;
    StatusInfo.servers_addItem text) ;;
  internet_status <- eval (Ok status).["internet_status"] ;;
  last_seen <- eval (v <~ (Ok status).["time_since_last_lan_connection"] ;;
                     floordiv v 60000) ;;
  connect_status <- eval
    (if eq_str internet_status "wait_local" then
       Ok "Waiting for local UrBackup server."
     else if eq_str internet_status "no_server" then
       Ok "No servers"
     else
       line1 <~ substitute StatusInfo.connect_to_local_format
                  [("status", PStr (if eq_str internet_status "connected_local"
                                    then "C" else "Not c"))] ;;
       line2 <~ substitute StatusInfo.last_seen_format [("minutes", PInt last_seen)] ;;
       Ok (line1 ++ String (ascii_of_nat 10) line2)) ;;
  StatusInfo.connect_status_setText connect_status.

End Part.
End Part.

(* ===================================================================== *)
(** ** More sample inputs *)
(* ===================================================================== *)

(** Documents the window presenter stumbles over, and machines on which the
    control utility cannot be run. *)
Module Faulty.

(** The idle document with a time of the last backup in the year 10000,
    for which [datetime] has no date. *)
Definition undated : pyval :=
  PDict [ ("running_processes", PList []);
          ("last_backup_time", PInt 253402300800);
          ("servers", PList [Sample.srv1]);
          ("internet_status", PStr "connected_local");
          ("time_since_last_lan_connection", PInt 120000) ].

Definition undated_snapshot : Snapshot.t :=
  Snapshot.mk [] (Some 253402300800) [Snapshot.mk_server "srv1" true]
    "connected_local" 120000.

(** The document of [Sample.backing_up] without its servers. *)
Definition no_servers : pyval :=
  PDict [ ("running_processes",
           PList [PDict [ ("action", PStr "INCR");
                          ("eta_ms", PInt 7260000);
                          ("percent_done", PInt 42);
                          ("process_id", PInt 3) ]]);
          ("last_backup_time", PInt 1700000000);
          ("internet_status", PStr "connected_local");
          ("time_since_last_lan_connection", PInt 120000) ].



(** A process that reports 150 percent. *)
Definition overdone : pyval :=
  PDict [ ("running_processes",
           PList [PDict [ ("action", PStr "INCR");
                          ("eta_ms", PInt 60000);
                          ("percent_done", PInt 150) ]]);
          ("servers", PList [Sample.srv1]);
          ("internet_status", PStr "connected_local");
          ("time_since_last_lan_connection", PInt 0) ].

Definition overdone_snapshot : Snapshot.t :=
  Snapshot.mk [Snapshot.mk_process Snapshot.INCR (Some 60000) 150]
    None [Snapshot.mk_server "srv1" true] "connected_local" 0.

(** A body of the window with something in every widget. *)
Definition stale : StatusInfo.t :=
  StatusInfo.mk "Full file backup running. 99% done." "ETA: 0 hours 1 minutes" 99
    "Last backup on 01/01/2020 12:00:00 AM" ["old (Internet: No)"] "No servers".

(** A machine without the control utility. *)
Definition missing_utility : Machine :=
  {| sys_platform := "linux";
     programs := fun _ _ => Raise FileNotFoundError;
     calls := [];
     dialogs := [];
     printed := [] |}.

(** A machine on which the control utility ends with 1 when it is first
    run and is gone after that. *)
Definition utility_removed : Machine :=
  {| sys_platform := "linux";
     programs := fun n _ =>
                   match n with
                   | O => Ok {| returncode := 1; stdout := "" |}
                   | S _ => Raise FileNotFoundError
                   end;
     calls := [];
     dialogs := [];
     printed := [] |}.

End Faulty.

(* ===================================================================== *)
(** * Properties *)
(* ===================================================================== *)

(** ** Running a method step by step *)

(** [run] performs the steps of a method that need no case analysis: the
    binds, the evaluation of expressions that have a value, the property
    writes.  It stops at a subscript, a length or a test on a value that is
    not known, which the proof then settles by a lemma or by cases. *)
Ltac run :=
  cbn [bind eval ret modify obind sub iter contains is_None
       as_int eq_int eq_str negb andb orb fst snd option_map
       StatusInfo.status_text_setText StatusInfo.eta_text_setText
       StatusInfo.last_backup_setText StatusInfo.connect_status_setText
       StatusInfo.progress_bar_setValue StatusInfo.servers_clear
       StatusInfo.servers_addItem
       StatusInfo.status_text StatusInfo.eta_text StatusInfo.progress_bar
       StatusInfo.last_backup StatusInfo.servers StatusInfo.connect_status].
Ltac run_in H :=
  cbn [bind eval ret modify obind sub iter contains is_None
       as_int eq_int eq_str negb andb orb fst snd option_map
       StatusInfo.status_text_setText StatusInfo.eta_text_setText
       StatusInfo.last_backup_setText StatusInfo.connect_status_setText
       StatusInfo.progress_bar_setValue StatusInfo.servers_clear
       StatusInfo.servers_addItem
       StatusInfo.status_text StatusInfo.eta_text StatusInfo.progress_bar
       StatusInfo.last_backup StatusInfo.servers StatusInfo.connect_status] in H.

Lemma run_bind_assoc {S A B C} (m : M S A) (f : A -> M S B) (g : B -> M S C) (w : S) :
  bind (bind m f) g w = bind m (fun a => bind (f a) g) w.
Proof. unfold bind. destruct (m w) as [[a|e] w']; reflexivity. Qed.

Lemma run_eval_Ok {S A B} (a : A) (k : A -> M S B) (w : S) :
  bind (eval (Ok a)) k w = k a w.
Proof. reflexivity. Qed.

Lemma run_eval_Raise {S A B} (e : exn) (k : A -> M S B) (w : S) :
  bind (eval (Raise e)) k w = (Raise e, w).
Proof. reflexivity. Qed.

Lemma run_ret {S A B} (a : A) (k : A -> M S B) (w : S) :
  bind (ret a) k w = k a w.
Proof. reflexivity. Qed.

(** [step] does the same by rewriting, one bind at a time, and so also gets
    past a bind whose first half is itself a sequence. *)
Ltac step :=
  repeat (first [ rewrite run_bind_assoc | rewrite run_eval_Ok
                | rewrite run_eval_Raise | rewrite run_ret ];
          cbv beta iota).

Lemma sub_Ok (v key : pyval) : (Ok v).[key] = getitem v key.
Proof. reflexivity. Qed.

(** ** Subscripts, lengths and the five templates *)

Lemma status_substitute a p :
  substitute StatusInfo.status_format [("status", PStr a); ("progress", PStr p)]
  = Ok (a ++ " " ++ p).
Proof. reflexivity. Qed.

Lemma eta_substitute t :
  substitute StatusInfo.eta_format [("time", PStr t)] = Ok ("ETA: " ++ t).
Proof. reflexivity. Qed.

Lemma last_backup_substitute t :
  substitute StatusInfo.last_backup_format [("date", PStr t)] = Ok ("Last backup on " ++ t).
Proof. reflexivity. Qed.

Lemma connect_substitute c :
  substitute StatusInfo.connect_to_local_format [("status", PStr c)]
  = Ok (c ++ "onnected to local UrBackup server.").
Proof. reflexivity. Qed.

Lemma last_seen_substitute m :
  substitute StatusInfo.last_seen_format [("minutes", PInt m)]
  = Ok ("Local server last seen " ++ str_of_Z m ++ " minutes ago.").
Proof. reflexivity. Qed.

Lemma getitem_first v l : getitem (PList (v :: l)) (PInt 0) = Ok v.
Proof. reflexivity. Qed.

Lemma getitem_dict d k v : dict_get d k = Some v -> getitem (PDict d) (PStr k) = Ok v.
Proof. intros H. cbn. rewrite H. reflexivity. Qed.

Lemma len_nil : len (PList []) = Ok 0.
Proof. reflexivity. Qed.

Lemma len_cons v l : exists n, len (PList (v :: l)) = Ok n /\ (0 <? n) = true.
Proof. eexists. split; reflexivity. Qed.

Lemma getitem_idle : getitem StatusInfo.statuses (PStr "IDLE") = Ok (PStr "Idle.").
Proof. reflexivity. Qed.

Ltac fmt :=
  rewrite ?status_substitute, ?eta_substitute, ?last_backup_substitute,
    ?connect_substitute, ?last_seen_substitute.

Section Presenter.
Context {DT : DateTime}.
Import Snapshot.

(** ** Reading a snapshot *)
Lemma read_action_sound v a :
  read_action v = Some a -> getitem StatusInfo.statuses v = Ok (PStr (Spec.action_text a)).
Proof.
  destruct v; try discriminate; simpl.
  unfold read_action.
  destruct (String.eqb s "FULL") eqn:E1.
  { apply String.eqb_eq in E1; subst. intros [= <-]. reflexivity. }
  destruct (String.eqb s "INCR") eqn:E2.
  { apply String.eqb_eq in E2; subst. intros [= <-]. reflexivity. }
  destruct (String.eqb s "IDLE") eqn:E3.
  { apply String.eqb_eq in E3; subst. intros [= <-]. reflexivity. }
  discriminate.
Qed.

Lemma read_process_sound v p :
  read_process v = Some p ->
  exists d a,
    v = PDict d /\ dict_get d "action" = Some a /\ read_action a = Some (action p)
    /\ dict_get d "eta_ms" = Some (match eta_ms p with Some n => PInt n | None => PNone end)
    /\ dict_get d "percent_done" = Some (PInt (percent_done p)).
Proof.
  unfold read_process. destruct v; try discriminate.
  destruct (dict_get d "action") as [a|] eqn:Ha; try discriminate.
  destruct (dict_get d "eta_ms") as [e|] eqn:He; try discriminate.
  destruct (dict_get d "percent_done") as [[| | n | | |]|] eqn:Hp; try discriminate.
  destruct (read_action a) as [a'|] eqn:Hra; try discriminate.
  destruct e; try discriminate; intros [= <-]; exists d, a; simpl; auto.
Qed.

Lemma for_each_lines (body : pyval -> M StatusInfo.t unit) :
  (forall v sv w, read_server v = Some sv ->
                  body v w = StatusInfo.servers_addItem (Spec.server_line sv) w) ->
  forall l ss w,
    read_all read_server l = Some ss ->
    for_each l body w
    = (Ok tt,
       StatusInfo.mk (StatusInfo.status_text w) (StatusInfo.eta_text w)
         (StatusInfo.progress_bar w) (StatusInfo.last_backup w)
         (StatusInfo.servers w ++ map Spec.server_line ss)
         (StatusInfo.connect_status w)).
Proof.
  intros Hbody l. induction l as [|v l IH]; intros ss w H; simpl in H.
  - injection H as <-. simpl. rewrite app_nil_r. destruct w; reflexivity.
  - destruct (read_server v) as [sv|] eqn:Hv; try discriminate.
    destruct (read_all read_server l) as [r|] eqn:Hr; try discriminate.
    injection H as <-.
    cbn [for_each]. unfold bind at 1. rewrite (Hbody _ _ _ Hv).
    cbn [StatusInfo.servers_addItem modify].
    rewrite (IH r _ eq_refl). cbn. rewrite <- app_assoc. reflexivity.
Qed.

Lemma read_server_sound v sv :
  read_server v = Some sv ->
  exists d, v = PDict d /\ dict_get d "name" = Some (PStr (name sv))
            /\ dict_get d "internet_connection" = Some (PBool (internet_connection sv)).
Proof.
  unfold read_server. destruct v; try discriminate.
  destruct (dict_get d "name") as [[| | |n| |]|] eqn:Hn; try discriminate.
  destruct (dict_get d "internet_connection") as [[|b| | | |]|] eqn:Hb; try discriminate.
  intros [= <-]. eauto.
Qed.

Lemma read_sound status s :
  read status = Some s ->
  exists d ps ss,
    status = PDict d
    /\ dict_get d "running_processes" = Some (PList ps)
    /\ read_all read_process ps = Some (running_processes s)
    /\ dict_get d "servers" = Some (PList ss)
    /\ read_all read_server ss = Some (servers s)
    /\ dict_get d "internet_status" = Some (PStr (internet_status s))
    /\ dict_get d "time_since_last_lan_connection"
       = Some (PInt (time_since_last_lan_connection s))
    /\ dict_get d "last_backup_time" = option_map PInt (last_backup_time s).
Proof.
  unfold read. destruct status; try discriminate.
  destruct (dict_get d "running_processes") as [[| | | |ps|]|] eqn:Hp; try discriminate.
  destruct (dict_get d "servers") as [[| | | |ss|]|] eqn:Hs; try discriminate.
  destruct (dict_get d "internet_status") as [[| | |i| |]|] eqn:Hi; try discriminate.
  destruct (dict_get d "time_since_last_lan_connection") as [[| |t| | |]|] eqn:Ht;
    try discriminate.
  destruct (read_all read_process ps) as [ps'|] eqn:Hps; try discriminate.
  destruct (read_all read_server ss) as [ss'|] eqn:Hss; try discriminate.
  destruct (dict_get d "last_backup_time") as [[| |b| | |]|] eqn:Hb; try discriminate;
    intros [= <-]; exists d, ps, ss; simpl; repeat split; auto.
Qed.

(** ** A snapshot that reads is rendered as the specification says *)

Lemma update_status_snapshot status s w :
  read status = Some s -> dated s = true ->
  StatusInfo.update_status status w
  = (Ok tt,
     StatusInfo.mk
       (Spec.status_line s)
       (Spec.eta_line s)
       (if (0 <=? Spec.bar_value s) && (Spec.bar_value s <=? 100)
        then Spec.bar_value s else StatusInfo.progress_bar w)
       (match last_backup_time s with
        | Some t =>
            match date_text t with
            | Ok d => "Last backup on " ++ d
            | Raise _ => StatusInfo.last_backup w
            end
        | None => StatusInfo.last_backup w
        end)
       (map Spec.server_line (servers s))
       (Spec.connect_line s)).
Proof.
  intros Hr Hd.
  destruct (read_sound _ _ Hr) as (d & ps & ss & -> & Hps & Hrp & Hss & Hrs & Hi & Ht & Hb).
  assert (Htail : forall w0,
    (present <- eval (contains (PDict d) "last_backup_time") ;;
    last_backup <-
      (if present : bool then
         date <- eval (t <~ (Ok (PDict d)).["last_backup_time"] ;;
                       d <~ fromtimestamp t ;;
                       strftime d "%m/%d/%Y %I:%M:%S %p") ;;
         ret (Some date)
       else ret None) ;;
    match last_backup with
    | Some date =>
        text <- eval (substitute StatusInfo.last_backup_format [("date", PStr date)]) ;;
        StatusInfo.last_backup_setText text
    | None => ret tt
    end ;;
    StatusInfo.servers_clear ;;
    items <- eval (r <~ (Ok (PDict d)).["servers"] ;; iter r) ;;
    for_each items (fun server =>
      text <- eval (name <~ (Ok server).["name"] ;;
                    ic <~ (Ok server).["internet_connection"] ;;
                    Ok (str name ++ " (Internet: "
                        ++ (if truthy ic then "Yes" else "No") ++ ")")) ;;
      StatusInfo.servers_addItem text) ;;
    internet_status <- eval (Ok (PDict d)).["internet_status"] ;;
    last_seen <- eval (v <~ (Ok (PDict d)).["time_since_last_lan_connection"] ;;
                       floordiv v 60000) ;;
    connect_status <- eval
      (if eq_str internet_status "wait_local" then
         Ok "Waiting for local UrBackup server."
       else if eq_str internet_status "no_server" then
         Ok "No servers"
       else
         line1 <~ substitute StatusInfo.connect_to_local_format
                    [("status", PStr (if eq_str internet_status "connected_local"
                                      then "C" else "Not c"))] ;;
         line2 <~ substitute StatusInfo.last_seen_format [("minutes", PInt last_seen)] ;;
         Ok (line1 ++ String (ascii_of_nat 10) line2)) ;;
    StatusInfo.connect_status_setText connect_status) w0
    = (Ok tt,
       StatusInfo.mk (StatusInfo.status_text w0) (StatusInfo.eta_text w0)
         (StatusInfo.progress_bar w0)
         (match last_backup_time s with
          | Some t =>
              match date_text t with
              | Ok d => "Last backup on " ++ d
              | Raise _ => StatusInfo.last_backup w0
              end
          | None => StatusInfo.last_backup w0
          end)
         (map Spec.server_line (servers s))
         (Spec.connect_line s))).
  { intros w0. run. cbn [getitem]. rewrite Hb, Hss, Hi, Ht. unfold dated in Hd.
    assert (Hloop : forall (body : pyval -> M StatusInfo.t unit) w1,
      (forall v sv w, read_server v = Some sv ->
                      body v w = StatusInfo.servers_addItem (Spec.server_line sv) w) ->
      for_each ss body w1
      = (Ok tt,
         StatusInfo.mk (StatusInfo.status_text w1) (StatusInfo.eta_text w1)
           (StatusInfo.progress_bar w1) (StatusInfo.last_backup w1)
           (StatusInfo.servers w1 ++ map Spec.server_line (servers s))
           (StatusInfo.connect_status w1))).
    { intros body w1 Hbody. apply for_each_lines; assumption. }
    assert (Hbody : forall v sv (w : StatusInfo.t), read_server v = Some sv ->
      (Ok v).["name"] = Ok (PStr (name sv))
      /\ (Ok v).["internet_connection"] = Ok (PBool (internet_connection sv))).
    { intros v sv _ Hv. destruct (read_server_sound _ _ Hv) as (sd & -> & Hn & Hc).
      cbn [sub obind getitem]. rewrite Hn, Hc. auto. }
    destruct (last_backup_time s) as [t0|]; run.
    - unfold date_text in *.
      destruct (fromtimestamp t0) as [d0|]; cbn [obind] in *; try discriminate.
      destruct (strftime d0 _) as [a|]; try discriminate.
      run. fmt. run. unfold bind at 1.
      rewrite Hloop;
        [ | intros v sv w2 Hv; destruct (Hbody _ _ w2 Hv) as [Hn Hc]; run_in Hn; run_in Hc;
            cbn [getitem] in *; rewrite ?Hn, ?Hc; run; destruct sv as [n []]; reflexivity ].
      run. unfold floordiv; run. unfold Spec.connect_line.
      destruct (String.eqb (internet_status s) "wait_local"); [reflexivity|].
      destruct (String.eqb (internet_status s) "no_server"); [reflexivity|].
      destruct (String.eqb (internet_status s) "connected_local"); reflexivity.
    - unfold bind at 1. rewrite Hloop;
        [ | intros v sv w2 Hv; destruct (Hbody _ _ w2 Hv) as [Hn Hc]; run_in Hn; run_in Hc;
            cbn [getitem] in *; rewrite ?Hn, ?Hc; run; destruct sv as [n []]; reflexivity ].
      run. unfold floordiv; run. unfold Spec.connect_line.
      destruct (String.eqb (internet_status s) "wait_local"); [reflexivity|].
      destruct (String.eqb (internet_status s) "no_server"); [reflexivity|].
      destruct (String.eqb (internet_status s) "connected_local"); reflexivity. }
  unfold StatusInfo.update_status. cbn [is_None].
  set (tail := bind (eval (contains (PDict d) "last_backup_time")) _) in *.
  clearbody tail. clear Hr Hd Hb Hss Hrs Hi Ht.
  cbn [sub obind]. rewrite (getitem_dict _ _ _ Hps). cbn [obind].
  unfold Spec.status_line, Spec.eta_line, Spec.bar_value.
  destruct ps as [|v ps']; simpl in Hrp.
  - injection Hrp as <-.
    rewrite len_nil. run. change (0 <? 0) with false. run.
    rewrite getitem_idle. run. fmt. run.
    change ((0 <=? 0) && (0 <=? 100)) with true.
    run. rewrite Htail. reflexivity.
  - destruct (read_process v) as [p|] eqn:Hv; try discriminate.
    destruct (read_all read_process ps') as [r|]; try discriminate.
    injection Hrp as <-.
    destruct (read_process_sound _ _ Hv) as (pd & a & -> & Ha & Hra & He & Hp).
    apply read_action_sound in Hra.
    destruct (len_cons (PDict pd) ps') as (n & Hn & Hpos). rewrite Hn. run. rewrite Hpos.
    rewrite getitem_first. run.
    rewrite (getitem_dict _ _ _ Ha), (getitem_dict _ _ _ He), (getitem_dict _ _ _ Hp). run.
    unfold Spec.progress_text, Spec.progress_value, Spec.eta_time.
    destruct p as [act eta pc]; cbn [action eta_ms percent_done] in *.
    unfold bind at 1 2 3 4. unfold eval at 1 2 3. cbv beta iota. cbn [eq_int as_int].
    destruct (pc =? -1) eqn:Hpc.
    + unfold ret at 1. cbv beta iota. run. rewrite Hra. run. fmt. run.
      change ((0 <=? 0) && (0 <=? 100)) with true. cbv iota.
      destruct eta as [e|]; [destruct (e =? -1) eqn:He1|];
        run; rewrite ?He1; run; unfold floordiv; run; fmt; run;
        rewrite Htail; reflexivity.
    + unfold ret at 1. cbv beta iota. run. rewrite Hra. run. fmt. run.
      destruct ((0 <=? pc) && (pc <=? 100));
        (destruct eta as [e|]; [destruct (e =? -1) eqn:He1|];
         run; rewrite ?He1; run; unfold floordiv; run; fmt; run;
         rewrite Htail; reflexivity).
Qed.

(** The label of the last backup is written when the snapshot has the
    time, and only then: without the key it is left as it was. *)
Lemma last_backup_label (status : pyval) (s : Snapshot.t) (w : StatusInfo.t) :
  read status = Some s -> dated s = true ->
  StatusInfo.last_backup (snd (StatusInfo.update_status status w))
  = match last_backup_time s with
    | Some t =>
        match date_text t with
        | Ok date => "Last backup on " ++ date
        | Raise _ => StatusInfo.last_backup w
        end
    | None => StatusInfo.last_backup w
    end.
Proof.
  intros Hr Hd. rewrite (update_status_snapshot _ _ w Hr Hd). reflexivity.
Qed.

(** ** Values the window cannot render *)

Lemma statuses_unknown (a : string) :
  a <> "FULL" -> a <> "INCR" -> a <> "IDLE" ->
  getitem StatusInfo.statuses (PStr a) = Raise (KeyError (PStr a)).
Proof.
  intros H1 H2 H3. unfold StatusInfo.statuses. cbn [getitem dict_get].
  rewrite (proj2 (String.eqb_neq "FULL" a)) by congruence.
  rewrite (proj2 (String.eqb_neq "INCR" a)) by congruence.
  rewrite (proj2 (String.eqb_neq "IDLE" a)) by congruence.
  reflexivity.
Qed.

Lemma getitem_str_key_dict (v : pyval) (k : string) (x : pyval) :
  getitem v (PStr k) = Ok x -> exists d, v = PDict d /\ dict_get d k = Some x.
Proof.
  destruct v; cbn; try discriminate.
  destruct (dict_get d k) eqn:E; [|discriminate].
  intros [= <-]. eauto.
Qed.

Lemma no_eta_raises (status : pyval) (ps : list pyval) (pd : list (string * pyval))
    (a : pyval) (w : StatusInfo.t) :
  getitem status "running_processes" = Ok (PList (PDict pd :: ps)) ->
  dict_get pd "action" = Some a ->
  dict_get pd "eta_ms" = None ->
  StatusInfo.update_status status w = (Raise (KeyError "eta_ms"), w).
Proof.
  intros Hrp Ha He.
  assert (Hs : is_None status = false) by (destruct status; [discriminate Hrp|..]; reflexivity).
  unfold StatusInfo.update_status. rewrite Hs.
  cbn [sub obind] in *. rewrite Hrp. cbn [obind].
  destruct (len_cons (PDict pd) ps) as (n & Hn & Hpos). rewrite Hn. step. rewrite Hpos.
  rewrite !sub_Ok, getitem_first, !sub_Ok.
  rewrite (getitem_dict _ _ _ Ha). step.
  cbn [getitem]. rewrite He. step.
  reflexivity.
Qed.


(** ** The presenters *)

(** C4: given [None], neither presenter raises, and both draw the unknown
    state whatever was on screen before: the window shows "Could not get
    status!", an empty ETA line, a progress bar at 0, an empty last-backup
    line, an empty server list and the connection text "Unknown"; the tray
    icon and the window icon are the "not connected" icon. *)
Theorem None_renders_unknown (w : StatusInfo.t) (a : App.t) :
  StatusInfo.update_status PNone w
  = (Ok tt, StatusInfo.mk "Could not get status!" "" 0 "" [] "Unknown")
  /\ App.update_tray PNone a
     = (Ok tt, App.mk App.not_connected App.not_connected
                 (App.status_info a) (App.update_timer a)).
Proof.
  split.
  - unfold StatusInfo.update_status. cbn [is_None]. step.
    change ((0 <=? 0) && (0 <=? 100)) with true. run. reflexivity.
  - unfold App.update_tray. cbn [is_None]. reflexivity.
Qed.

(** C1: the icon presenter sets the tray icon and the window icon to one
    and the same icon, the one [Spec.choose_icon] picks from three facts
    about its input: whether it is [None], whether [running_processes] has
    an item, and the value of [internet_status].  The input is [None] or a
    document with an internet status and with running processes that have a
    length. *)
Theorem update_tray_chooses_icon
    (status : pyval) (a : App.t) (i rp : pyval) (n : Z) :
  status = PNone
  \/ (getitem status "internet_status" = Ok i
      /\ getitem status "running_processes" = Ok rp
      /\ len rp = Ok n) ->
  let chosen := Spec.choose_icon (is_None status) (0 <? n) i in
  App.update_tray status a
  = (Ok tt, App.mk chosen chosen (App.status_info a) (App.update_timer a)).
Proof.
  intros [-> | (Hi & Hrp & Hn)]; [reflexivity|].
  assert (Hs : is_None status = false)
    by (destruct status; [discriminate Hi|..]; reflexivity).
  cbv zeta. rewrite Hs. unfold App.update_tray. rewrite Hs.
  rewrite !sub_Ok, Hi. step. rewrite Hrp. cbn [obind]. rewrite Hn. step.
  unfold Spec.choose_icon.
  destruct (0 <? n); [reflexivity|].
  destruct (eq_str i "connected_local"); reflexivity.
Qed.

(** The whole table of the choice, by cases on the three facts. *)
Lemma choose_icon_table (has_running_process : bool) (i : pyval) :
  Spec.choose_icon true has_running_process i = App.not_connected
  /\ Spec.choose_icon false true i = App.busy
  /\ Spec.choose_icon false false "connected_local" = App.connected
  /\ Spec.choose_icon false false "wait_local" = App.not_connected
  /\ Spec.choose_icon false false "no_server" = App.not_connected
  /\ (eq_str i "connected_local" = false ->
      Spec.choose_icon false false i = App.not_connected).
Proof.
  repeat split. intros H. unfold Spec.choose_icon. rewrite H. reflexivity.
Qed.

(** C7: for a snapshot with no running process the status text is "Idle. ",
    the idle label, a space and an empty progress part; with a running
    process it starts with the label of the first process's action, FULL,
    INCR or IDLE, followed by a space and the progress part. *)
Theorem status_text_rendered (status : pyval) (s : Snapshot.t) (w : StatusInfo.t) :
  read status = Some s -> dated s = true ->
  exists w',
    StatusInfo.update_status status w = (Ok tt, w')
    /\ match running_processes s with
       | [] => StatusInfo.status_text w' = "Idle. "
       | p :: _ =>
           StatusInfo.status_text w'
           = Spec.action_text (action p) ++ " " ++ Spec.progress_text (percent_done p)
       end.
Proof.
  intros Hr Hd. eexists. split; [exact (update_status_snapshot _ _ w Hr Hd)|].
  cbn [StatusInfo.status_text]. unfold Spec.status_line.
  destruct (running_processes s); reflexivity.
Qed.

(** C5: when the first running process has [percent_done] -1, the progress
    bar is at 0 and the progress part of the status text is "Indexing.";
    when it is between 0 and 100, the bar is at that value and the progress
    part is the value followed by "% done."; with no running process the
    bar is at 0 and the progress part is empty. *)
Theorem progress_rendered (status : pyval) (s : Snapshot.t) (w : StatusInfo.t) :
  read status = Some s -> dated s = true ->
  exists w',
    StatusInfo.update_status status w = (Ok tt, w')
    /\ match running_processes s with
       | [] =>
           StatusInfo.progress_bar w' = 0
           /\ StatusInfo.status_text w' = "Idle." ++ " " ++ ""
       | p :: _ =>
           (percent_done p = -1 ->
            StatusInfo.progress_bar w' = 0
            /\ StatusInfo.status_text w'
               = Spec.action_text (action p) ++ " " ++ "Indexing.")
           /\ (0 <= percent_done p <= 100 ->
               StatusInfo.progress_bar w' = percent_done p
               /\ StatusInfo.status_text w'
                  = Spec.action_text (action p) ++ " "
                    ++ str_of_Z (percent_done p) ++ "% done.")
       end.
Proof.
  intros Hr Hd. eexists. split; [exact (update_status_snapshot _ _ w Hr Hd)|].
  cbn [StatusInfo.status_text StatusInfo.progress_bar].
  unfold Spec.status_line, Spec.bar_value, Spec.progress_value, Spec.progress_text.
  destruct (running_processes s) as [|p ps].
  - split; reflexivity.
  - split.
    + intros ->. split; reflexivity.
    + intros Hp.
      replace (percent_done p =? -1) with false by (symmetry; apply Z.eqb_neq; lia).
      replace ((0 <=? percent_done p) && (percent_done p <=? 100)) with true
        by (symmetry; apply andb_true_iff; split; apply Z.leb_le; lia).
      split; reflexivity.
Qed.

(** C10: when [running_processes] is not empty and the action of its first
    item is a string other than FULL, INCR and IDLE, the window presenter
    raises [KeyError], the table of action texts having no entry for it, and
    draws nothing. *)
Theorem unknown_action_raises_KeyError
    (status r : pyval) (n : Z) (a : string) (w : StatusInfo.t) :
  getitem status "running_processes" = Ok r ->
  len r = Ok n ->
  0 < n ->
  (Ok r).[0].["action"] = Ok (PStr a) ->
  a <> "FULL" -> a <> "INCR" -> a <> "IDLE" ->
  exists key, StatusInfo.update_status status w = (Raise (KeyError key), w).
Proof.
  intros Hrp Hn Hpos Ha H1 H2 H3.
  assert (Hs : is_None status = false)
    by (destruct status; [discriminate Hrp|..]; reflexivity).
  unfold StatusInfo.update_status. rewrite Hs.
  cbn [sub obind] in *. rewrite Hrp. cbn [obind]. rewrite Hn. step.
  rewrite (proj2 (Z.ltb_lt 0 n) Hpos). step.
  destruct (getitem r 0) as [p|] eqn:Hp; [|discriminate]. cbn [obind] in *.
  destruct (getitem_str_key_dict _ _ _ Ha) as (pd & -> & Hact).
  cbn [sub obind]. rewrite Hp. cbn [sub obind getitem]. rewrite Hact. step.
  destruct (dict_get pd "eta_ms") as [e|]; [|eexists; reflexivity]. step.
  destruct (dict_get pd "percent_done") as [pc|]; [|eexists; reflexivity]. step.
  exists (PStr a).
  destruct (eq_int pc (-1)); step; rewrite (statuses_unknown a H1 H2 H3); reflexivity.
Qed.

End Presenter.

(** ** The poller and the command it runs *)

Section Poller.
Context {DT : DateTime} {JS : Json} {QT : Binding}.

(** One poll: the outcome, and the command added to the log. *)
Lemma get_status_run (m : Machine) :
  App.get_status m
  = (match programs m (length (calls m)) ["urbackupclientctl"; "status"] with
     | Ok r => if returncode r =? 0 then json_loads (stdout r) else Ok PNone
     | Raise e => Raise e
     end,
     {| sys_platform := sys_platform m;
        programs := programs m;
        calls := (calls m ++ [["urbackupclientctl"; "status"]])%list;
        dialogs := dialogs m;
        printed := printed m |}).
Proof.
  unfold App.get_status, bind, subprocess_run.
  destruct (programs m _ _) as [r|e]; [|reflexivity].
  destruct (returncode r =? 0); reflexivity.
Qed.

(** The presenters work on the window and leave the machine alone. *)
Lemma on_window_machine {A} (f : M App.t A) (s : Machine * App.t) :
  fst (snd (App.on_window f s)) = fst s.
Proof. unfold App.on_window. destruct (f (snd s)). reflexivity. Qed.

(** A slot leaves the object as the method it calls leaves it, and ends
    well when the method does. *)
Lemma slot_state {S} (f : M S unit) (s : S) : snd (App.slot f s) = snd (f s).
Proof. unfold App.slot. destruct (f s) as [[[]|e] s']; reflexivity. Qed.

Lemma slot_Ok {S} (f : M S unit) (s s' : S) :
  f s = (Ok tt, s') -> App.slot f s = (Ok tt, s').
Proof. intros H. unfold App.slot. rewrite H. reflexivity. Qed.

(** A tick, spelled out: the poll, the conversion of its answer for the
    slots, then the icon presenter and the window presenter as slots. *)
Lemma update_status_run (m : Machine) (a : App.t) :
  App.update_status (m, a)
  = match App.get_status m with
    | (Ok status, m1) =>
        match received status with
        | Ok v =>
            match App.slot (App.update_tray v) a with
            | (Ok _, a1) =>
                let '(r, a2) :=
                  App.slot (App.in_status_info (StatusInfo.update_status v)) a1 in
                (r, (m1, a2))
            | (Raise e, a1) => (Raise e, (m1, a1))
            end
        | Raise e => (Raise e, (m1, a))
        end
    | (Raise e, m1) => (Raise e, (m1, a))
    end.
Proof.
  unfold App.update_status, App.status_emit, App.on_machine, App.on_window, bind.
  cbn [fst snd].
  destruct (App.get_status m) as [[status|e] m1]; [|reflexivity].
  cbn [fst snd]. unfold eval.
  destruct (received status) as [v|e]; [|reflexivity].
  cbn [fst snd].
  destruct (App.slot (App.update_tray v) a) as [[[]|e] a1]; [|reflexivity].
  cbn [fst snd].
  destruct (App.slot _ a1) as [r a2]. reflexivity.
Qed.

(** A tick changes the machine in one way only: the command of the poller
    is added to the log.  It shows no message box and prints nothing,
    however the poll and the presenters fare. *)
Lemma update_status_machine (m : Machine) (a : App.t) :
  fst (snd (App.update_status (m, a)))
  = {| sys_platform := sys_platform m;
       programs := programs m;
       calls := calls m ++ [["urbackupclientctl"; "status"]];
       dialogs := dialogs m;
       printed := printed m |}.
Proof.
  rewrite update_status_run, get_status_run.
  destruct (match programs m _ _ with Ok _ => _ | Raise _ => _ end) as [status|e];
    [|reflexivity].
  destruct (received status) as [v|e]; [|reflexivity].
  destruct (App.slot (App.update_tray v) a) as [[[]|e] a1]; [|reflexivity].
  destruct (App.slot _ a1). reflexivity.
Qed.


(** On Windows the main window gives up before it polls. *)
Lemma init_win32 (m : Machine) :
  sys_platform m = "win32" ->
  App.init m
  = (Raise (SystemExit 1),
     {| sys_platform := sys_platform m;
        programs := programs m;
        calls := calls m;
        dialogs := (dialogs m
                    ++ [("Not supported", "Windows is currently not supported")])%list;
        printed := printed m |}).
Proof.
  intros Hw. apply String.eqb_eq in Hw.
  unfold App.init, bind, platform. cbv beta iota. rewrite Hw. reflexivity.
Qed.

(** [__init__] after the platform test, spelled out: the first poll, whose
    answer is dropped, and then the first tick over the window as it is
    created, after which the timer is started. *)
Lemma init_run (m : Machine) :
  String.eqb (sys_platform m) "win32" = false ->
  App.init m
  = match App.get_status m with
    | (Ok _, m1) =>
        match App.update_status
                (m1, App.mk App.not_connected App.not_connected Sample.initial None) with
        | (Ok _, (m2, a)) =>
            (Ok (App.mk (App.window_icon a) (App.tray_icon a) (App.status_info a)
                   (Some 5000)), m2)
        | (Raise e, (m2, _)) => (Raise e, m2)
        end
    | (Raise FileNotFoundError, m1) =>
        (Raise (SystemExit 1),
         {| sys_platform := sys_platform m1;
            programs := programs m1;
            calls := calls m1;
            dialogs := dialogs m1
                       ++ [("UrBackup Error",
                            "Could not find the UrBackup control executable!")];
            printed := printed m1 |})
    | (Raise e, m1) => (Raise e, m1)
    end.
Proof.
  intros Hw. unfold App.init. unfold bind at 1. unfold platform at 1. cbv beta iota.
  rewrite Hw. unfold bind at 1. unfold ret at 1. cbv beta iota.
  unfold bind at 1. unfold except_FileNotFoundError. unfold bind at 1.
  destruct (App.get_status m) as [[st|e] m1].
  - unfold ret at 1. cbv beta iota. unfold bind at 1, eval at 1.
    change StatusInfo.init with (Ok Sample.initial). cbv beta iota zeta.
    unfold bind at 1.
    destruct (App.update_status _) as [[[]|e] [m2 a]]; reflexivity.
  - destruct e; reflexivity.
Qed.



(** C3, as amended: when the control utility ends with a return code other
    than zero, the poller returns [None]; when it ends with zero, the
    poller returns whatever [json.loads] makes of its output, be it a value
    or the decoder's exception, which is not caught.  So [None] comes back
    for a nonzero return code and also for a zero one whose output decodes
    to [None], and in no other case. *)
Theorem get_status_outcome (m : Machine) (r : CompletedProcess) :
  programs m (length (calls m)) ["urbackupclientctl"; "status"] = Ok r ->
  (returncode r <> 0 -> fst (App.get_status m) = Ok PNone)
  /\ (returncode r = 0 -> fst (App.get_status m) = json_loads (stdout r))
  /\ (fst (App.get_status m) = Ok PNone
      <-> returncode r <> 0 \/ json_loads (stdout r) = Ok PNone).
Proof.
  intros Hr. rewrite get_status_run, Hr. cbn [fst].
  destruct (Z.eqb_spec (returncode r) 0) as [E|E].
  - split; [tauto|]. split; [reflexivity|]. split; [auto|].
    intros [H|H]; [contradiction|exact H].
  - split; [reflexivity|]. split; [contradiction|]. split; auto.
Qed.


End Poller.

(** ** The program at work on the sample inputs *)

(** The runs below use the decoder of this file, the clock of a machine
    on UTC and, where the signal is emitted, PySide2. *)

Lemma init_is_initial : StatusInfo.init = Ok Sample.initial.
Proof. reflexivity. Qed.

Lemma samples_read :
  Snapshot.read Sample.backing_up = Some Sample.backing_up_snapshot
  /\ Snapshot.read Sample.indexing = Some Sample.indexing_snapshot
  /\ Snapshot.read Sample.idle = Some Sample.idle_snapshot
  /\ Snapshot.read Sample.no_eta = None
  /\ Snapshot.read Sample.image_backup = None.
Proof. repeat split. Qed.

Lemma idle_document_decodes : Decoder.loads Sample.idle_document = Ok Sample.idle.
Proof. vm_compute. reflexivity. Qed.

(** Section 8 of the specification, first scenario: the tool ends with 0
    and prints the idle document. *)
Example tick_when_idle :
  let r := App.update_status (DT := FixedZone.lib 0) (JS := Decoder.lib)
             (QT := Bindings.PySide2)
             (Sample.machine "linux" 0 Sample.idle_document, Sample.window) in
  fst r = Ok tt
  /\ snd (snd r)
     = App.mk App.connected App.connected
         (StatusInfo.mk "Idle. " "" 0 "" ["srv1 (Internet: Yes)"]
            ("Connected to local UrBackup server." ++ Spec.newline
             ++ "Local server last seen 2 minutes ago."))
         None.
Proof. vm_compute. split; reflexivity. Qed.

(** Second scenario: the tool ends with 1. *)
Example tick_when_tool_fails :
  let r := App.update_status (DT := FixedZone.lib 0) (JS := Decoder.lib)
             (QT := Bindings.PySide2)
             (Sample.machine "linux" 1 "", Sample.window) in
  fst r = Ok tt
  /\ snd (snd r)
     = App.mk App.not_connected App.not_connected
         (StatusInfo.mk "Could not get status!" "" 0 "" [] "Unknown")
         None.
Proof. vm_compute. split; reflexivity. Qed.

(** An output that is no JSON document ends the tick with the decoder's
    exception; the window stays as it was. *)
Example tick_when_output_is_malformed :
  let r := App.update_status (DT := FixedZone.lib 0) (JS := Decoder.lib)
             (QT := Bindings.PySide2)
             (Sample.machine "linux" 0 "{", Sample.window) in
  fst r = Raise JSONDecodeError /\ snd (snd r) = Sample.window.
Proof. vm_compute. split; reflexivity. Qed.

(** *** Witnesses *)

(** C1 at the idle snapshot: connected to a local server, nothing running. *)
Lemma update_tray_chooses_icon_idle :
  App.update_tray Sample.idle Sample.window
  = (Ok tt, App.mk App.connected App.connected Sample.initial None).
Proof.
  exact (update_tray_chooses_icon Sample.idle Sample.window
           (PStr "connected_local") (PList []) 0
           (or_intror (conj eq_refl (conj eq_refl eq_refl)))).
Defined.

(** C3 at a tool that ends with 0 and prints an empty object. *)
Lemma get_status_outcome_sample :
  let m := Sample.machine "linux" 0 "{}" in
  let r := {| returncode := 0; stdout := "{}" |} in
  (returncode r <> 0 -> fst (App.get_status (JS := Decoder.lib) m) = Ok PNone)
  /\ (returncode r = 0 ->
      fst (App.get_status (JS := Decoder.lib) m) = Ok (PDict []))
  /\ (fst (App.get_status (JS := Decoder.lib) m) = Ok PNone
      <-> returncode r <> 0 \/ Ok (PDict []) = Ok PNone).
Proof.
  exact (get_status_outcome (JS := Decoder.lib) (Sample.machine "linux" 0 "{}")
           {| returncode := 0; stdout := "{}" |} eq_refl).
Defined.

(** C5 while the file list is built and at 42 percent. *)
Lemma progress_rendered_samples :
  (exists w',
     StatusInfo.update_status (DT := FixedZone.lib 0) Sample.indexing Sample.initial
     = (Ok tt, w')
     /\ (-1 = -1 ->
         StatusInfo.progress_bar w' = 0
         /\ StatusInfo.status_text w' = "Full file backup running. Indexing.")
     /\ (0 <= -1 <= 100 ->
         StatusInfo.progress_bar w' = -1
         /\ StatusInfo.status_text w' = "Full file backup running. -1% done."))
  /\ (exists w',
        StatusInfo.update_status (DT := FixedZone.lib 0) Sample.backing_up Sample.initial
        = (Ok tt, w')
        /\ (42 = -1 ->
            StatusInfo.progress_bar w' = 0
            /\ StatusInfo.status_text w' = "Incremental file backup running. Indexing.")
        /\ (0 <= 42 <= 100 ->
            StatusInfo.progress_bar w' = 42
            /\ StatusInfo.status_text w' = "Incremental file backup running. 42% done.")).
Proof.
  split.
  - exact (progress_rendered (DT := FixedZone.lib 0) Sample.indexing
             Sample.indexing_snapshot Sample.initial eq_refl eq_refl).
  - exact (progress_rendered (DT := FixedZone.lib 0) Sample.backing_up
             Sample.backing_up_snapshot Sample.initial eq_refl eq_refl).
Defined.

(** C7 at the idle snapshot and during an incremental backup. *)
Lemma status_text_rendered_samples :
  (exists w',
     StatusInfo.update_status (DT := FixedZone.lib 0) Sample.idle Sample.initial
     = (Ok tt, w')
     /\ StatusInfo.status_text w' = "Idle. ")
  /\ (exists w',
        StatusInfo.update_status (DT := FixedZone.lib 0) Sample.backing_up Sample.initial
        = (Ok tt, w')
        /\ StatusInfo.status_text w' = "Incremental file backup running. 42% done.").
Proof.
  split.
  - exact (status_text_rendered (DT := FixedZone.lib 0) Sample.idle
             Sample.idle_snapshot Sample.initial eq_refl eq_refl).
  - exact (status_text_rendered (DT := FixedZone.lib 0) Sample.backing_up
             Sample.backing_up_snapshot Sample.initial eq_refl eq_refl).
Defined.

(** C10 at a full image backup, action FULLI. *)
Lemma unknown_action_raises_KeyError_image :
  exists key,
    StatusInfo.update_status (DT := FixedZone.lib 0) Sample.image_backup Sample.initial
    = (Raise (KeyError key), Sample.initial).
Proof.
  apply (unknown_action_raises_KeyError (DT := FixedZone.lib 0) Sample.image_backup
           (PList [PDict [ ("action", PStr "FULLI");
                           ("eta_ms", PInt 60000);
                           ("percent_done", PInt 10) ]])
           1 "FULLI" Sample.initial);
    [ reflexivity | reflexivity | reflexivity | reflexivity
    | discriminate | discriminate | discriminate ].
Defined.

(** *** Where the code and the claims part *)

(** C3 as stated fails: the tool ends with 0 and prints the document
    [null], which decodes to [None]; the poller returns [None] although
    the return code is zero. *)
Lemma get_status_None_on_zero_exit :
  let m := Sample.machine "linux" 0 "null" in
  programs m (length (calls m)) ["urbackupclientctl"; "status"]
  = Ok {| returncode := 0; stdout := "null" |}
  /\ json_loads (Json := Decoder.lib) "null" = Ok PNone
  /\ fst (App.get_status (JS := Decoder.lib) m) = Ok PNone.
Proof.
  cbv zeta. split; [reflexivity|]. split; vm_compute; reflexivity.
Qed.

(** C8 fails on the code: a snapshot with the time of the last backup is
    drawn, then one without the key.  The second rendering ends well and
    the label still shows the date of the first, where the claim wants it
    empty. *)
Theorem last_backup_label_kept :
  let render := StatusInfo.update_status (DT := FixedZone.lib 0) in
  let w1 := snd (render Sample.backing_up Sample.initial) in
  let w2 := snd (render Sample.idle w1) in
  contains Sample.idle "last_backup_time" = Ok false
  /\ fst (render Sample.idle w1) = Ok tt
  /\ StatusInfo.last_backup w1 = "Last backup on 11/14/2023 10:13:20 PM"
  /\ StatusInfo.last_backup w2 = "Last backup on 11/14/2023 10:13:20 PM"
  /\ StatusInfo.last_backup w2 <> "".
Proof.
  cbv zeta. split; [reflexivity|].
  split; [vm_compute; reflexivity|].
  split; [vm_compute; reflexivity|].
  split; [vm_compute; reflexivity|].
  vm_compute. discriminate.
Qed.

(* ===================================================================== *)
(** * More of the window presenter *)
(* ===================================================================== *)

Lemma bind_ext {S A B} (m : M S A) (f g : A -> M S B) (w : S) :
  (forall a w', f a w' = g a w') -> bind m f w = bind m g w.
Proof. intros H. unfold bind. destruct (m w) as [[a|e] w']; [apply H|reflexivity]. Qed.


Section Rendering.
Context {DT : DateTime}.
Import Snapshot.

(** ** The two parts of the method *)

Lemma update_status_parts (status : pyval) (w : StatusInfo.t) :
  is_None status = false ->
  StatusInfo.update_status status w
  = (Part.current_status status ;; Part.server_and_backup_information status) w.
Proof.
  intros Hs. unfold StatusInfo.update_status. rewrite Hs.
  unfold Part.current_status.
  fold (Part.server_and_backup_information status).
  generalize (Part.server_and_backup_information status) as rest. intros rest.
  symmetry.
  rewrite run_bind_assoc; apply bind_ext; intros n w1.
  rewrite run_bind_assoc; apply bind_ext; intros [[[c p] pc] eta] w2.
  rewrite run_bind_assoc; apply bind_ext; intros text w3.
  rewrite run_bind_assoc; apply bind_ext; intros [] w4.
  rewrite run_bind_assoc; apply bind_ext; intros [] w5.
  reflexivity.
Qed.

(** The first part needs the running processes only, and writes the status
    line, the ETA line and the progress bar. *)
Lemma current_status_run (status : pyval) (ps : list pyval) (s : Snapshot.t)
    (w : StatusInfo.t) :
  getitem status "running_processes" = Ok (PList ps) ->
  read_all read_process ps = Some (running_processes s) ->
  Part.current_status status w
  = (Ok tt,
     StatusInfo.mk (Spec.status_line s) (Spec.eta_line s)
       (if (0 <=? Spec.bar_value s) && (Spec.bar_value s <=? 100)
        then Spec.bar_value s else StatusInfo.progress_bar w)
       (StatusInfo.last_backup w) (StatusInfo.servers w)
       (StatusInfo.connect_status w)).
Proof.
  intros Hps Hrp. unfold Part.current_status.
  cbn [sub obind]. rewrite Hps. cbn [obind].
  unfold Spec.status_line, Spec.eta_line, Spec.bar_value.
  destruct ps as [|v ps']; simpl in Hrp.
  - injection Hrp as <-.
    rewrite len_nil. run. change (0 <? 0) with false. run.
    rewrite getitem_idle. run. fmt. run.
    change ((0 <=? 0) && (0 <=? 100)) with true.
    run. reflexivity.
  - destruct (read_process v) as [p|] eqn:Hv; try discriminate.
    destruct (read_all read_process ps') as [r|]; try discriminate.
    injection Hrp as <-.
    destruct (read_process_sound _ _ Hv) as (pd & a & -> & Ha & Hra & He & Hp).
    apply read_action_sound in Hra.
    destruct (len_cons (PDict pd) ps') as (n & Hn & Hpos). rewrite Hn. run. rewrite Hpos.
    rewrite getitem_first. run.
    rewrite (getitem_dict _ _ _ Ha), (getitem_dict _ _ _ He), (getitem_dict _ _ _ Hp). run.
    unfold Spec.progress_text, Spec.progress_value, Spec.eta_time.
    destruct p as [act eta pc]; cbn [action eta_ms percent_done] in *.
    unfold bind at 1 2 3 4. unfold eval at 1 2 3. cbv beta iota. cbn [eq_int as_int].
    destruct (pc =? -1) eqn:Hpc.
    + unfold ret at 1. cbv beta iota. run. rewrite Hra. run. fmt. run.
      change ((0 <=? 0) && (0 <=? 100)) with true. cbv iota.
      destruct eta as [e|]; [destruct (e =? -1) eqn:He1|];
        run; rewrite ?He1; run; unfold floordiv; run; fmt; run;
        reflexivity.
    + unfold ret at 1. cbv beta iota. run. rewrite Hra. run. fmt. run.
      destruct ((0 <=? pc) && (pc <=? 100));
        (destruct eta as [e|]; [destruct (e =? -1) eqn:He1|];
         run; rewrite ?He1; run; unfold floordiv; run; fmt; run;
         reflexivity).
Qed.


(** ** Where a rendering stops *)

(** X1: The time of the last backup is turned into a date before anything of
    the second part is written.  When that fails (the value is no number, or
    a time [datetime] has no date for), the method ends with the exception of
    [datetime]: the status line, the ETA line and the progress bar show the
    new snapshot, while the label of the last backup, the server list, which
    has not been cleared yet, and the connection text still show what they
    showed before. *)
Theorem date_failure_stops_rendering (status : pyval) (ps : list pyval)
    (s : Snapshot.t) (t : pyval) (e : exn) (w : StatusInfo.t) :
  getitem status "running_processes" = Ok (PList ps) ->
  read_all read_process ps = Some (running_processes s) ->
  getitem status "last_backup_time" = Ok t ->
  (d <~ fromtimestamp t ;; strftime d "%m/%d/%Y %I:%M:%S %p") = Raise e ->
  StatusInfo.update_status status w
  = (Raise e,
     StatusInfo.mk (Spec.status_line s) (Spec.eta_line s)
       (if (0 <=? Spec.bar_value s) && (Spec.bar_value s <=? 100)
        then Spec.bar_value s else StatusInfo.progress_bar w)
       (StatusInfo.last_backup w) (StatusInfo.servers w)
       (StatusInfo.connect_status w)).
Proof.
  intros Hps Hrp Ht He.
  destruct (getitem_str_key_dict _ _ _ Ht) as (d & -> & Hd).
  rewrite update_status_parts by reflexivity.
  unfold bind at 1. rewrite (current_status_run _ _ _ _ Hps Hrp).
  unfold Part.server_and_backup_information.
  cbn [contains]. rewrite Hd. step.
  rewrite sub_Ok, Ht. cbn [obind]. rewrite He. step. reflexivity.
Qed.

(** The same for a snapshot: when its time of the last backup has no date,
    the first part is drawn and nothing of the second. *)
Lemma update_status_undated (status : pyval) (s : Snapshot.t) (w : StatusInfo.t) :
  read status = Some s -> dated s = false ->
  exists e,
    StatusInfo.update_status status w
    = (Raise e,
       StatusInfo.mk (Spec.status_line s) (Spec.eta_line s)
         (if (0 <=? Spec.bar_value s) && (Spec.bar_value s <=? 100)
          then Spec.bar_value s else StatusInfo.progress_bar w)
         (StatusInfo.last_backup w) (StatusInfo.servers w)
         (StatusInfo.connect_status w)).
Proof.
  intros Hr Hd.
  destruct (read_sound _ _ Hr) as (d & ps & ss & -> & Hps & Hrp & _ & _ & _ & _ & Hb).
  unfold dated, date_text in Hd.
  destruct (last_backup_time s) as [t|]; [|discriminate]. cbn [option_map] in Hb.
  destruct (d0 <~ fromtimestamp t ;; strftime d0 _) as [date|e] eqn:He; [discriminate|].
  exists e. rewrite update_status_parts by reflexivity.
  unfold bind at 1.
  rewrite (current_status_run _ _ _ _ (getitem_dict _ _ _ Hps) Hrp).
  unfold Part.server_and_backup_information.
  cbn [contains]. rewrite Hb. step.
  rewrite sub_Ok, (getitem_dict _ _ _ Hb). cbn [obind]. rewrite He. step. reflexivity.
Qed.

(** The first part of a rendering is drawn for every snapshot, whether or
    not the second part ends well. *)
Lemma first_part_drawn (status : pyval) (s : Snapshot.t) (w : StatusInfo.t) :
  read status = Some s ->
  StatusInfo.status_text (snd (StatusInfo.update_status status w)) = Spec.status_line s
  /\ StatusInfo.eta_text (snd (StatusInfo.update_status status w)) = Spec.eta_line s.
Proof.
  intros Hr. destruct (dated s) eqn:Hd.
  - rewrite (update_status_snapshot _ _ w Hr Hd). auto.
  - destruct (update_status_undated _ _ w Hr Hd) as [e ->]. auto.
Qed.

(** C2: for every snapshot, the ETA line after a rendering is "ETA: H
    hours M minutes" with H = eta_ms // 3 600 000 and M = eta_ms // 60 000,
    both taken from the whole number of milliseconds, when the first running
    process has an [eta_ms] other than -1; it is empty when [eta_ms] is -1
    or null and when no process is running.  The line is written before the
    time of the last backup is looked at, so this does not depend on how the
    rest of the rendering ends; the rendering ends well when that time has a
    date. *)
Theorem eta_text_rendered (status : pyval) (s : Snapshot.t) (w : StatusInfo.t) :
  read status = Some s ->
  StatusInfo.eta_text (snd (StatusInfo.update_status status w))
  = match running_processes s with
    | [] => ""
    | p :: _ =>
        match eta_ms p with
        | None => ""
        | Some eta =>
            if eta =? -1 then ""
            else "ETA: " ++ str_of_Z (eta / 3600000) ++ " hours "
                 ++ str_of_Z (eta / 60000) ++ " minutes"
        end
    end
  /\ (dated s = true -> fst (StatusInfo.update_status status w) = Ok tt).
Proof.
  intros Hr. split.
  - rewrite (proj2 (first_part_drawn _ _ w Hr)).
    unfold Spec.eta_line, Spec.eta_time.
    destruct (running_processes s) as [|p ps]; [reflexivity|].
    destruct (eta_ms p) as [eta|]; [|reflexivity].
    destruct (eta =? -1); reflexivity.
  - intros Hd. rewrite (update_status_snapshot _ _ w Hr Hd). reflexivity.
Qed.

(** C6, as amended: for a snapshot whose time of the last backup is absent
    or has a date, the rendering ends well and the connection text is
    "Waiting for local UrBackup server." for the internet status wait_local,
    "No servers" for no_server, and otherwise two lines: "Connected to local
    UrBackup server." exactly when the status is connected_local, else "Not
    connected to local UrBackup server.", then "Local server last seen M
    minutes ago." with M the time since the last LAN connection divided by
    60 000, rounded down.  For a snapshot whose time of the last backup has
    no date, the rendering ends with the exception of [datetime] before it
    comes to the connection text, which stays as it was. *)
Theorem connect_status_rendered
    (status : pyval) (s : Snapshot.t) (w : StatusInfo.t) :
  read status = Some s ->
  (dated s = true ->
   exists w',
     StatusInfo.update_status status w = (Ok tt, w')
     /\ StatusInfo.connect_status w'
        = let minutes := str_of_Z (time_since_last_lan_connection s / 60000) in
          if String.eqb (internet_status s) "wait_local" then
            "Waiting for local UrBackup server."
          else if String.eqb (internet_status s) "no_server" then
            "No servers"
          else
            (if String.eqb (internet_status s) "connected_local"
             then "Connected to local UrBackup server."
             else "Not connected to local UrBackup server.")
            ++ Spec.newline
            ++ "Local server last seen " ++ minutes ++ " minutes ago.")
  /\ (dated s = false ->
      exists e,
        fst (StatusInfo.update_status status w) = Raise e
        /\ StatusInfo.connect_status (snd (StatusInfo.update_status status w))
           = StatusInfo.connect_status w).
Proof.
  intros Hr. split; intros Hd.
  - eexists. split; [exact (update_status_snapshot _ _ w Hr Hd)|].
    cbn [StatusInfo.connect_status]. unfold Spec.connect_line. reflexivity.
  - destruct (update_status_undated _ _ w Hr Hd) as [e ->]. exists e. auto.
Qed.

(** X2: The server list is cleared before the servers are read.  A document
    without the key [servers] therefore leaves the list empty, not as it was:
    the method ends with [KeyError], the first part and the label of the last
    backup are drawn, and the connection text is the old one. *)
Theorem missing_servers_empties_list (d : list (string * pyval)) (ps : list pyval)
    (s : Snapshot.t) (w : StatusInfo.t) :
  dict_get d "running_processes" = Some (PList ps) ->
  read_all read_process ps = Some (running_processes s) ->
  dict_get d "last_backup_time" = option_map PInt (last_backup_time s) ->
  dated s = true ->
  dict_get d "servers" = None ->
  StatusInfo.update_status (PDict d) w
  = (Raise (KeyError "servers"),
     StatusInfo.mk (Spec.status_line s) (Spec.eta_line s)
       (if (0 <=? Spec.bar_value s) && (Spec.bar_value s <=? 100)
        then Spec.bar_value s else StatusInfo.progress_bar w)
       (match last_backup_time s with
        | Some t =>
            match date_text t with
            | Ok date => "Last backup on " ++ date
            | Raise _ => StatusInfo.last_backup w
            end
        | None => StatusInfo.last_backup w
        end)
       []
       (StatusInfo.connect_status w)).
Proof.
  intros Hps Hrp Hb Hd Hss.
  rewrite update_status_parts by reflexivity.
  unfold bind at 1.
  rewrite (current_status_run _ _ _ _ (getitem_dict _ _ _ Hps) Hrp).
  unfold Part.server_and_backup_information.
  cbn [contains]. rewrite Hb. unfold dated in Hd.
  destruct (last_backup_time s) as [t|]; cbn [option_map] in *.
  - step. rewrite sub_Ok, (getitem_dict _ _ _ Hb). cbn [obind].
    unfold date_text in *.
    destruct (d0 <~ fromtimestamp t ;; strftime d0 _) as [date|]; [|discriminate].
    step. fmt. step. run. cbn [getitem]. rewrite Hss. reflexivity.
  - step. run. cbn [getitem]. rewrite Hss. reflexivity.
Qed.




(** ** What a rendering keeps of the window before it *)

(** X4: The server list is rebuilt on every rendering: it holds one row for
    each server of the snapshot, in the order of the snapshot, and none of
    the rows it held before. *)
Theorem server_list_rebuilt (status : pyval) (s : Snapshot.t) (w : StatusInfo.t) :
  read status = Some s -> dated s = true ->
  StatusInfo.servers (snd (StatusInfo.update_status status w))
  = map Spec.server_line (servers s)
  /\ length (StatusInfo.servers (snd (StatusInfo.update_status status w)))
     = length (servers s).
Proof.
  intros Hr Hd. rewrite (update_status_snapshot _ _ w Hr Hd). cbn [snd StatusInfo.servers].
  split; [reflexivity|apply length_map].
Qed.

(** X5: A snapshot with the time of the last backup, for which [datetime] has
    the date [date], sets the label to "Last backup on" and that date,
    whatever the label was. *)
Theorem last_backup_date_shown (status : pyval) (s : Snapshot.t) (t : Z)
    (date : string) (w : StatusInfo.t) :
  read status = Some s ->
  last_backup_time s = Some t ->
  date_text t = Ok date ->
  fst (StatusInfo.update_status status w) = Ok tt
  /\ StatusInfo.last_backup (snd (StatusInfo.update_status status w))
     = "Last backup on " ++ date.
Proof.
  intros Hr Ht Hdate.
  assert (Hd : dated s = true) by (unfold dated; rewrite Ht, Hdate; reflexivity).
  rewrite (update_status_snapshot _ _ w Hr Hd). cbn [fst snd StatusInfo.last_backup].
  rewrite Ht, Hdate. auto.
Qed.

(** X6: Of the window as it was, a rendering keeps at most two things: the
    value of the progress bar and the label of the last backup.  The same
    snapshot drawn over two windows that agree on these two gives the same
    window; and when the snapshot has a bar value from 0 to 100 and the time
    of the last backup, it gives the same window over any two.  The bar
    value is one that fits the C [int] [setValue] takes. *)
Theorem rendering_forgets (status : pyval) (s : Snapshot.t) (w w' : StatusInfo.t) :
  read status = Some s -> dated s = true ->
  - 2147483648 <= Spec.bar_value s <= 2147483647 ->
  (StatusInfo.progress_bar w = StatusInfo.progress_bar w' ->
   StatusInfo.last_backup w = StatusInfo.last_backup w' ->
   StatusInfo.update_status status w = StatusInfo.update_status status w')
  /\ ((0 <=? Spec.bar_value s) && (Spec.bar_value s <=? 100) = true ->
      last_backup_time s <> None ->
      StatusInfo.update_status status w = StatusInfo.update_status status w').
Proof.
  intros Hr Hd _.
  rewrite (update_status_snapshot _ _ w Hr Hd), (update_status_snapshot _ _ w' Hr Hd).
  split.
  - intros -> ->. reflexivity.
  - intros -> Ht. unfold dated in Hd.
    destruct (last_backup_time s) as [t|]; [|contradiction].
    destruct (date_text t); [reflexivity|discriminate].
Qed.

(** X7: Drawing the same snapshot a second time changes nothing. *)
Theorem rendering_idempotent (status : pyval) (s : Snapshot.t) (w : StatusInfo.t) :
  read status = Some s -> dated s = true ->
  StatusInfo.update_status status (snd (StatusInfo.update_status status w))
  = StatusInfo.update_status status w.
Proof.
  intros Hr Hd.
  rewrite (update_status_snapshot _ _ w Hr Hd). cbn [snd].
  rewrite (update_status_snapshot _ _ _ Hr Hd).
  cbn [StatusInfo.progress_bar StatusInfo.last_backup].
  destruct ((0 <=? Spec.bar_value s) && (Spec.bar_value s <=? 100));
    destruct (last_backup_time s) as [t|]; try reflexivity;
    destruct (date_text t); reflexivity.
Qed.

(** X8: A percentage that is neither -1 nor from 0 to 100, and that fits
    the C [int] [setValue] takes, is written on the status line as it is,
    while the progress bar, which takes no value outside its range, stays
    where it was. *)
Theorem percent_out_of_range (status : pyval) (s : Snapshot.t) (p : process)
    (rest : list process) (w : StatusInfo.t) :
  read status = Some s -> dated s = true ->
  running_processes s = p :: rest ->
  - 2147483648 <= percent_done p < -1 \/ 100 < percent_done p <= 2147483647 ->
  fst (StatusInfo.update_status status w) = Ok tt
  /\ StatusInfo.progress_bar (snd (StatusInfo.update_status status w))
     = StatusInfo.progress_bar w
  /\ StatusInfo.status_text (snd (StatusInfo.update_status status w))
     = Spec.action_text (action p) ++ " " ++ str_of_Z (percent_done p) ++ "% done.".
Proof.
  intros Hr Hd Hp Hrange.
  rewrite (update_status_snapshot _ _ w Hr Hd).
  cbn [fst snd StatusInfo.progress_bar StatusInfo.status_text].
  unfold Spec.bar_value, Spec.status_line, Spec.progress_value, Spec.progress_text.
  rewrite Hp.
  assert (H1 : (percent_done p =? -1) = false) by (apply Z.eqb_neq; lia).
  rewrite H1.
  assert (H2 : (0 <=? percent_done p) && (percent_done p <=? 100) = false).
  { apply andb_false_iff. destruct Hrange; [left; apply Z.leb_gt|right; apply Z.leb_gt]; lia. }
  rewrite H2. auto.
Qed.

(** ** Documents the presenters cannot read *)

(** X9: A status that is neither [None] nor a dictionary (the control utility
    printed a number, a string, a list or a truth value) makes both
    presenters raise [TypeError] at their first subscript, before anything is
    written. *)
Theorem status_not_a_dict (status : pyval) (w : StatusInfo.t) (a : App.t) :
  is_None status = false ->
  (forall d, status <> PDict d) ->
  StatusInfo.update_status status w = (Raise TypeError, w)
  /\ App.update_tray status a = (Raise TypeError, a).
Proof.
  intros Hn Hd. unfold StatusInfo.update_status, App.update_tray. rewrite Hn.
  destruct status as [|b|n|t|l|d]; try discriminate; try (split; reflexivity).
  destruct (Hd d eq_refl).
Qed.

(** X10: A dictionary without the key [running_processes] makes the window
    presenter raise [KeyError] with that key before anything is written; one
    without [internet_status] does the same to the icon presenter. *)
Theorem missing_first_key (d : list (string * pyval)) (w : StatusInfo.t) (a : App.t) :
  (dict_get d "running_processes" = None ->
   StatusInfo.update_status (PDict d) w = (Raise (KeyError "running_processes"), w))
  /\ (dict_get d "internet_status" = None ->
      App.update_tray (PDict d) a = (Raise (KeyError "internet_status"), a)).
Proof.
  split; intros H.
  - unfold StatusInfo.update_status. cbn [is_None sub obind getitem]. rewrite H. reflexivity.
  - unfold App.update_tray. cbn [is_None sub obind getitem]. rewrite H. reflexivity.
Qed.

End Rendering.

(* ===================================================================== *)
(** * More of the main window *)
(* ===================================================================== *)

(** ** The icon presenter *)

(** X11: The icon presenter on any input at all: either it sets the tray icon
    and the window icon to one and the same icon, or it raises and has set
    neither.  The body of the window and the timer are not touched in either
    case. *)
Theorem update_tray_both_or_neither (status : pyval) (a : App.t) :
  (exists i, App.update_tray status a
             = (Ok tt, App.mk i i (App.status_info a) (App.update_timer a)))
  \/ (exists e, App.update_tray status a = (Raise e, a)).
Proof.
  unfold App.update_tray. destruct (is_None status).
  - left. exists App.not_connected. reflexivity.
  - destruct ((Ok status).["internet_status"]) as [i|e]; step; [|right; eauto].
    destruct (r <~ (Ok status).["running_processes"] ;; len r) as [n|e]; step;
      [|right; eauto].
    left. destruct (0 <? n); [exists App.busy; reflexivity|].
    destruct (eq_str i "connected_local");
      [exists App.connected|exists App.not_connected]; reflexivity.
Qed.

(** What the icon presenter leaves alone. *)
Lemma update_tray_frame (status : pyval) (a : App.t) :
  App.status_info (snd (App.update_tray status a)) = App.status_info a
  /\ App.update_timer (snd (App.update_tray status a)) = App.update_timer a
  /\ (App.tray_icon a = App.window_icon a ->
      App.tray_icon (snd (App.update_tray status a))
      = App.window_icon (snd (App.update_tray status a))).
Proof.
  unfold App.update_tray. destruct (is_None status); [cbn; auto|].
  destruct ((Ok status).["internet_status"]) as [i|e]; step; [|cbn; auto].
  destruct (r <~ (Ok status).["running_processes"] ;; len r) as [n|e]; step;
    [|cbn; auto].
  destruct (0 <? n); [cbn; auto|].
  destruct (eq_str i "connected_local"); cbn; auto.
Qed.

Lemma read_all_length {A} (f : pyval -> option A) (l : list pyval) (r : list A) :
  Snapshot.read_all f l = Some r -> length r = length l.
Proof.
  revert r. induction l as [|v l IH]; intros r H; simpl in H.
  - injection H as <-. reflexivity.
  - destruct (f v); [|discriminate]. destruct (Snapshot.read_all f l); [|discriminate].
    injection H as <-. simpl. f_equal. apply IH. reflexivity.
Qed.

(** The icon for a snapshot that reads. *)
Lemma update_tray_snapshot (status : pyval) (s : Snapshot.t) (a : App.t) :
  Snapshot.read status = Some s ->
  App.update_tray status a
  = (Ok tt,
     let i := Spec.choose_icon false
                (match Snapshot.running_processes s with [] => false | _ => true end)
                (PStr (Snapshot.internet_status s)) in
     App.mk i i (App.status_info a) (App.update_timer a)).
Proof.
  intros Hr.
  destruct (read_sound _ _ Hr) as (d & ps & ss & -> & Hps & Hrp & _ & _ & Hi & _ & _).
  unfold App.update_tray. cbn [is_None].
  rewrite !sub_Ok, (getitem_dict _ _ _ Hi), (getitem_dict _ _ _ Hps). step.
  cbn [obind len]. step.
  apply read_all_length in Hrp. unfold Spec.choose_icon.
  destruct ps as [|v ps]; destruct (Snapshot.running_processes s) as [|p r];
    try discriminate Hrp; cbn [length]; [change (0 <? Z.of_nat 0) with false|].
  - cbv iota zeta. destruct (eq_str _ _); reflexivity.
  - replace (0 <? Z.of_nat (S (length ps))) with true by (symmetry; apply Z.ltb_lt; lia).
    reflexivity.
Qed.

Section Ticking.
Context {DT : DateTime} {JS : Json} {QT : Binding}.

(** ** One tick *)

(** The window presenter, run from the window, leaves the icons and the
    timer alone. *)
Lemma in_status_info_frame {A} (f : M StatusInfo.t A) (a : App.t) :
  App.window_icon (snd (App.in_status_info f a)) = App.window_icon a
  /\ App.tray_icon (snd (App.in_status_info f a)) = App.tray_icon a
  /\ App.update_timer (snd (App.in_status_info f a)) = App.update_timer a.
Proof.
  unfold App.in_status_info. destruct (f (App.status_info a)). cbn. auto.
Qed.

(** Neither presenter starts or stops the timer, and the window presenter
    leaves the icons alone, whatever the binding makes of the answer of the
    poll and of the exceptions of the slots. *)
Lemma update_status_window (m : Machine) (a : App.t) :
  App.update_timer (snd (snd (App.update_status (m, a)))) = App.update_timer a
  /\ (App.tray_icon a = App.window_icon a ->
      App.tray_icon (snd (snd (App.update_status (m, a))))
      = App.window_icon (snd (snd (App.update_status (m, a))))).
Proof.
  rewrite update_status_run.
  destruct (App.get_status m) as [[status|e] m1]; [|auto].
  destruct (received status) as [v|e]; [|auto].
  destruct (update_tray_frame v a) as (_ & Ht & Hi).
  rewrite <- (slot_state (App.update_tray v) a) in Ht, Hi.
  destruct (App.slot (App.update_tray v) a) as [[[]|e] a1]; cbn [snd] in *; [|auto].
  destruct (in_status_info_frame (StatusInfo.update_status v) a1) as (Hw & Hy & Hu).
  rewrite <- (slot_state (App.in_status_info (StatusInfo.update_status v)) a1)
    in Hw, Hy, Hu.
  destruct (App.slot _ a1) as [r a2]. cbn [snd] in *.
  split; [congruence|]. intros H. rewrite Hw, Hy. auto.
Qed.

(** The answer of the poll is all of the machine that a tick looks at. *)
Lemma update_status_by_answer (m m' : Machine) (a : App.t) :
  programs m (length (calls m)) ["urbackupclientctl"; "status"]
  = programs m' (length (calls m')) ["urbackupclientctl"; "status"] ->
  fst (App.update_status (m, a)) = fst (App.update_status (m', a))
  /\ snd (snd (App.update_status (m, a))) = snd (snd (App.update_status (m', a))).
Proof.
  intros H. rewrite !update_status_run, !get_status_run, H.
  destruct (programs m' _ _) as [r|e]; [|auto].
  destruct (if returncode r =? 0 then _ else _) as [status|e]; [|auto].
  destruct (received status) as [v|e]; [|auto].
  destruct (App.slot (App.update_tray v) a) as [[[]|e] a1]; [|auto].
  destruct (App.slot _ a1). auto.
Qed.

(** X12: When the control utility ends with a return code other than zero, the
    poll returns [None], and what the window shows depends on what the
    binding hands to the slots for it.  When the slots receive [None], as
    with PySide2, the tick ends well and the window shows the unknown state
    with the "not connected" icon, whatever it showed before.  When they
    receive an empty dictionary, as with PySide6, both presenters raise
    [KeyError] before they write anything, and the window goes on showing
    what it showed.  The timer is as it was in both cases. *)
Theorem tick_when_utility_fails (m : Machine) (a : App.t) (r : CompletedProcess) :
  programs m (length (calls m)) ["urbackupclientctl"; "status"] = Ok r ->
  returncode r <> 0 ->
  (received PNone = Ok PNone ->
   App.update_status (m, a)
   = (Ok tt,
      (snd (App.get_status m),
       App.mk App.not_connected App.not_connected
         (StatusInfo.mk "Could not get status!" "" 0 "" [] "Unknown")
         (App.update_timer a))))
  /\ (received PNone = Ok (PDict []) ->
      snd (App.update_status (m, a)) = (snd (App.get_status m), a)).
Proof.
  intros Hp Hc. apply Z.eqb_neq in Hc.
  rewrite update_status_run, get_status_run, Hp, Hc. cbn [negb].
  split; intros Hv; rewrite Hv.
  - unfold App.slot, App.in_status_info, App.update_tray, StatusInfo.update_status.
    cbn [is_None]. reflexivity.
  - unfold App.slot, App.in_status_info, App.update_tray, StatusInfo.update_status.
    cbn [is_None sub obind getitem dict_get bind eval fst snd].
    destruct (slot_raised (KeyError "internet_status")) as [[]|e1]; [|reflexivity].
    cbn [App.status_info App.window_icon App.tray_icon App.update_timer].
    destruct (slot_raised (KeyError "running_processes")); destruct a; reflexivity.
Qed.

(** X13: When the poll raises, because the command cannot be run or because its
    output is no JSON document, the tick ends with that exception, nothing
    catches it, and the window is left exactly as it was: it goes on showing
    the last status it drew. *)
Theorem tick_when_poll_raises (m : Machine) (a : App.t) (e : exn) :
  programs m (length (calls m)) ["urbackupclientctl"; "status"] = Raise e
  \/ (exists r,
        programs m (length (calls m)) ["urbackupclientctl"; "status"] = Ok r
        /\ returncode r = 0 /\ json_loads (stdout r) = Raise e) ->
  App.update_status (m, a) = (Raise e, (snd (App.get_status m), a)).
Proof.
  intros [Hp | (r & Hp & Hc & Hj)];
    rewrite update_status_run, get_status_run, Hp; [reflexivity|].
  rewrite Hc, Hj. reflexivity.
Qed.

(** X14: When the control utility ends with zero and prints a snapshot that
    reads, the tick ends well: both icons are the one chosen for the
    snapshot, and the body of the window shows the snapshot. *)
Theorem tick_draws_snapshot (m : Machine) (a : App.t) (r : CompletedProcess)
    (status : pyval) (s : Snapshot.t) :
  programs m (length (calls m)) ["urbackupclientctl"; "status"] = Ok r ->
  returncode r = 0 ->
  json_loads (stdout r) = Ok status ->
  Snapshot.read status = Some s -> dated s = true ->
  App.update_status (m, a)
  = (Ok tt,
     (snd (App.get_status m),
      let i := Spec.choose_icon false
                 (match Snapshot.running_processes s with [] => false | _ => true end)
                 (PStr (Snapshot.internet_status s)) in
      App.mk i i
        (StatusInfo.mk (Spec.status_line s) (Spec.eta_line s)
           (if (0 <=? Spec.bar_value s) && (Spec.bar_value s <=? 100)
            then Spec.bar_value s else StatusInfo.progress_bar (App.status_info a))
           (match Snapshot.last_backup_time s with
            | Some t =>
                match date_text t with
                | Ok date => "Last backup on " ++ date
                | Raise _ => StatusInfo.last_backup (App.status_info a)
                end
            | None => StatusInfo.last_backup (App.status_info a)
            end)
           (map Spec.server_line (Snapshot.servers s))
           (Spec.connect_line s))
        (App.update_timer a))).
Proof.
  intros Hp Hc Hj Hr Hd. rewrite update_status_run, get_status_run, Hp, Hc, Hj.
  cbn [Z.eqb].
  assert (Hv : received status = Ok status).
  { destruct (read_sound _ _ Hr) as (d & ? & ? & -> & _). apply received_dict. }
  rewrite Hv.
  rewrite (slot_Ok _ _ _ (update_tray_snapshot _ _ a Hr)). cbv zeta.
  erewrite slot_Ok;
    [|unfold App.in_status_info;
      cbn [App.status_info App.window_icon App.tray_icon App.update_timer];
      rewrite (update_status_snapshot _ _ _ Hr Hd); reflexivity].
  reflexivity.
Qed.

(** ** Many ticks *)

(** X15: After [n] ticks the log of commands has grown by [n] times the command
    of the poller and by nothing else; no message box was shown and nothing
    was printed. *)
Theorem ticks_machine (n : nat) (m : Machine) (a : App.t) :
  fst (ticks n (m, a))
  = {| sys_platform := sys_platform m;
       programs := programs m;
       calls := calls m ++ repeat ["urbackupclientctl"; "status"] n;
       dialogs := dialogs m;
       printed := printed m |}.
Proof.
  revert m a. induction n as [|n IH]; intros m a.
  - cbn. rewrite app_nil_r. destruct m; reflexivity.
  - cbn [ticks]. pose proof (update_status_machine m a) as H.
    destruct (snd (App.update_status (m, a))) as [m1 a1]. cbn [fst] in H.
    rewrite IH, H. cbn [sys_platform programs calls dialogs printed repeat].
    rewrite <- app_assoc. reflexivity.
Qed.

(** X16: Over any number of ticks, whatever the polls return, the timer stays as
    it was, and a tray icon and a window icon that were the same are still
    the same. *)
Theorem ticks_keep_icons_together (n : nat) (m : Machine) (a : App.t) :
  App.update_timer (snd (ticks n (m, a))) = App.update_timer a
  /\ (App.tray_icon a = App.window_icon a ->
      App.tray_icon (snd (ticks n (m, a))) = App.window_icon (snd (ticks n (m, a)))).
Proof.
  revert m a. induction n as [|n IH]; intros m a; [cbn; auto|].
  cbn [ticks]. destruct (update_status_window m a) as [Ht Hi].
  destruct (snd (App.update_status (m, a))) as [m1 a1]. cbn [snd] in *.
  destruct (IH m1 a1) as [Ht' Hi']. split; [congruence|auto].
Qed.


(** ** The start of the program *)

(** X17: When the command of the first poll cannot be found, the program tells
    the user so in a message box and exits with status 1, having run the
    command once. *)
Theorem init_when_utility_missing (m : Machine) :
  sys_platform m <> "win32" ->
  programs m (length (calls m)) ["urbackupclientctl"; "status"] = Raise FileNotFoundError ->
  App.init m
  = (Raise (SystemExit 1),
     {| sys_platform := sys_platform m;
        programs := programs m;
        calls := calls m ++ [["urbackupclientctl"; "status"]];
        dialogs := dialogs m
                   ++ [("UrBackup Error",
                        "Could not find the UrBackup control executable!")];
        printed := printed m |}).
Proof.
  intros Hw Hp. apply String.eqb_neq in Hw.
  rewrite (init_run m Hw), get_status_run, Hp. reflexivity.
Qed.

(** X18: Any other exception of the first poll (the command was found and could
    not be run, or it ended with zero and its output is no JSON document) is
    not caught: [__init__] ends with it, and no message box is shown. *)
Theorem init_first_poll_error_propagates (m : Machine) (e : exn) :
  sys_platform m <> "win32" ->
  fst (App.get_status m) = Raise e ->
  e <> FileNotFoundError ->
  App.init m
  = (Raise e,
     {| sys_platform := sys_platform m;
        programs := programs m;
        calls := calls m ++ [["urbackupclientctl"; "status"]];
        dialogs := dialogs m;
        printed := printed m |}).
Proof.
  intros Hw Hg He. apply String.eqb_neq in Hw.
  rewrite (init_run m Hw). rewrite get_status_run in *. cbn [fst] in Hg. rewrite Hg.
  destruct e; try reflexivity. contradiction.
Qed.

(** X19: The answer of the first poll is not used.  Take two machines that
    are the same but for what the control utility does when it is first run,
    and on both of which the first poll returns, whatever the document:
    [__init__] ends in the same way on both, with the same exception or with
    the same window. *)
Theorem init_drops_first_answer (m : Machine)
    (other : nat -> list string -> outcome CompletedProcess) (status status' : pyval) :
  let m' := {| sys_platform := sys_platform m;
               programs := other;
               calls := calls m;
               dialogs := dialogs m;
               printed := printed m |} in
  (forall k argv, k <> length (calls m) -> other k argv = programs m k argv) ->
  fst (App.get_status m) = Ok status ->
  fst (App.get_status m') = Ok status' ->
  fst (App.init m) = fst (App.init m').
Proof.
  intros m' Hother Hg Hg'.
  assert (Hp' : sys_platform m' = sys_platform m) by reflexivity.
  assert (Hc' : calls m' = calls m) by reflexivity.
  assert (Ho : programs m' = other) by reflexivity.
  clearbody m'.
  destruct (String.eqb (sys_platform m) "win32") eqn:Hw.
  { apply String.eqb_eq in Hw. rewrite (init_win32 m Hw).
    rewrite <- Hp' in Hw. rewrite (init_win32 m' Hw). reflexivity. }
  rewrite (init_run m Hw). rewrite <- Hp' in Hw. rewrite (init_run m' Hw).
  rewrite (get_status_run m) in *. rewrite (get_status_run m') in *.
  cbn [fst] in Hg, Hg'. rewrite Hg, Hg'.
  set (fresh := App.mk _ _ _ None).
  set (m1 := Build_Machine (sys_platform m) _ _ _ _).
  set (m1' := Build_Machine (sys_platform m') _ _ _ _).
  destruct (update_status_by_answer m1 m1' fresh) as [Hr Hs].
  { subst m1 m1'. cbn [programs calls]. rewrite Hc', Ho, length_app, Nat.add_1_r.
    symmetry. apply Hother. apply Nat.neq_succ_diag_l. }
  destruct (App.update_status (m1, fresh)) as [r1 [n1 a1]].
  destruct (App.update_status (m1', fresh)) as [r2 [n2 a2]].
  cbn [fst snd] in Hr, Hs. subst r2 a2. destruct r1 as [[]|e]; reflexivity.
Qed.

(** X20: The second poll of [__init__] is outside the [try]: when it raises, be
    it [FileNotFoundError], [__init__] ends with the exception as it is, no
    message box is shown and no window comes back. *)
Theorem init_second_poll_unguarded (m : Machine) (status : pyval) (e : exn) :
  sys_platform m <> "win32" ->
  fst (App.get_status m) = Ok status ->
  programs m (S (length (calls m))) ["urbackupclientctl"; "status"] = Raise e ->
  App.init m
  = (Raise e,
     {| sys_platform := sys_platform m;
        programs := programs m;
        calls := calls m ++ [["urbackupclientctl"; "status"];
                             ["urbackupclientctl"; "status"]];
        dialogs := dialogs m;
        printed := printed m |}).
Proof.
  intros Hw Hg Hp. apply String.eqb_neq in Hw. rewrite (init_run m Hw).
  rewrite get_status_run in *. cbn [fst] in Hg. rewrite Hg.
  rewrite update_status_run, get_status_run. cbn [programs calls].
  rewrite length_app, Nat.add_1_r, Hp.
  cbn [sys_platform programs calls dialogs printed]. rewrite <- app_assoc. reflexivity.
Qed.

(** X21: A control utility that is there and fails does not stop the program:
    when the first poll returns and the second ends with a return code other
    than zero, [__init__] ends well with the timer started with 5000 ms.
    Under a binding that hands [None] to the slots, as PySide2 does, the
    window is in the unknown state with both icons "not connected".  Under
    one that hands them an empty dictionary and goes on after the exception
    of a slot, as PySide6 does, the window is left as it was created. *)
Theorem init_when_utility_fails (m : Machine) (status : pyval) (r : CompletedProcess) :
  sys_platform m <> "win32" ->
  fst (App.get_status m) = Ok status ->
  programs m (S (length (calls m))) ["urbackupclientctl"; "status"] = Ok r ->
  returncode r <> 0 ->
  let m2 := {| sys_platform := sys_platform m;
               programs := programs m;
               calls := calls m ++ [["urbackupclientctl"; "status"];
                                    ["urbackupclientctl"; "status"]];
               dialogs := dialogs m;
               printed := printed m |} in
  (received PNone = Ok PNone ->
   App.init m
   = (Ok (App.mk App.not_connected App.not_connected
            (StatusInfo.mk "Could not get status!" "" 0 "" [] "Unknown")
            (Some 5000)), m2))
  /\ (received PNone = Ok (PDict []) ->
      (forall e, slot_raised e = Ok tt) ->
      App.init m
      = (Ok (App.mk App.not_connected App.not_connected Sample.initial (Some 5000)),
         m2)).
Proof.
  intros Hw Hg Hp Hc m2. apply String.eqb_neq in Hw. rewrite (init_run m Hw).
  rewrite get_status_run in *. cbn [fst] in Hg. rewrite Hg.
  rewrite update_status_run, get_status_run. cbn [programs calls].
  rewrite length_app, Nat.add_1_r, Hp. apply Z.eqb_neq in Hc. rewrite Hc.
  cbn [negb sys_platform programs calls dialogs printed]. rewrite <- app_assoc.
  split.
  - intros Hv. rewrite Hv.
    unfold App.slot, App.in_status_info, App.update_tray, StatusInfo.update_status.
    cbn [is_None]. reflexivity.
  - intros Hv Hs. rewrite Hv.
    unfold App.slot, App.in_status_info, App.update_tray, StatusInfo.update_status.
    cbn [is_None sub obind getitem dict_get bind eval fst snd].
    rewrite !Hs. reflexivity.
Qed.

(** X22: When [__init__] ends well, the platform is not win32, the command of
    the poller was run twice and nothing else, no message box was shown and
    nothing printed, the timer runs with 5000 ms, and the tray icon and the
    window icon are the same. *)
Theorem init_success (m m' : Machine) (a : App.t) :
  App.init m = (Ok a, m') ->
  String.eqb (sys_platform m) "win32" = false
  /\ m' = {| sys_platform := sys_platform m;
             programs := programs m;
             calls := calls m ++ [["urbackupclientctl"; "status"];
                                  ["urbackupclientctl"; "status"]];
             dialogs := dialogs m;
             printed := printed m |}
  /\ App.update_timer a = Some 5000
  /\ App.tray_icon a = App.window_icon a.
Proof.
  intros H.
  destruct (String.eqb (sys_platform m) "win32") eqn:Hw.
  { apply String.eqb_eq in Hw. rewrite (init_win32 m Hw) in H. discriminate. }
  split; [reflexivity|]. rewrite (init_run m Hw) in H.
  pose proof (get_status_run m) as Hg.
  destruct (App.get_status m) as [[st|e] m1]; [|destruct e; discriminate].
  injection Hg as _ ->.
  set (m1 := Build_Machine _ _ _ _ _) in *.
  set (fresh := App.mk _ _ _ None) in *.
  pose proof (update_status_machine m1 fresh) as Hm.
  destruct (update_status_window m1 fresh) as [_ Hi].
  destruct (App.update_status (m1, fresh)) as [[[]|e] [m2 a2]]; [|discriminate].
  cbn [fst snd] in *. injection H as <- <-.
  cbn [App.update_timer App.tray_icon App.window_icon].
  split; [|split; [reflexivity|apply Hi; reflexivity]].
  rewrite Hm. subst m1. cbn [sys_platform programs calls dialogs printed].
  rewrite <- app_assoc. reflexivity.
Qed.

End Ticking.

(* ===================================================================== *)
(** * The window on the desktop *)
(* ===================================================================== *)

(** X23: "Exit" in the menu of the tray icon ends the program whether or not the
    desktop has a tray and however the window stood: the close event is
    accepted, the timer is stopped and the window is hidden. *)
Theorem menu_exit_quits (tray : bool) (w : Window.t) :
  Window.close_app tray w
  = (Ok tt,
     Window.mk
       (App.mk (App.window_icon (Window.app w)) (App.tray_icon (Window.app w))
          (App.status_info (Window.app w)) None)
       true false (Window.minimized w)).
Proof. destruct w as [a c v m]. destruct tray; reflexivity. Qed.

(** X24: The close button, as long as "Exit" has not been chosen.  On a desktop
    with a tray the close event is ignored: the window is hidden and the
    timer goes on.  On a desktop without one the event is accepted and the
    timer is stopped. *)
Theorem close_button_hides_or_quits (tray : bool) (w : Window.t) :
  Window.closing w = false ->
  Window.close tray w
  = if tray
    then (Ok false, Window.mk (Window.app w) false false (Window.minimized w))
    else (Ok true,
          Window.mk
            (App.mk (App.window_icon (Window.app w)) (App.tray_icon (Window.app w))
               (App.status_info (Window.app w)) None)
            false false (Window.minimized w)).
Proof.
  destruct w as [a c v m]. cbn [Window.closing]. intros ->.
  destruct tray; reflexivity.
Qed.

(** "Open" in the menu brings the window back: it is shown and not
    minimized, whether it was hidden, minimized or both; nothing else
    changes. *)
Lemma open_and_show_run (tray : bool) (w : Window.t) :
  Window.open_and_show tray w
  = (Ok tt, Window.mk (Window.app w) (Window.closing w) true false).
Proof.
  destruct w as [a c v m]. destruct m; destruct tray; reflexivity.
Qed.

(** X25: A click on the tray icon ([Trigger]) brings the window back, shown and
    not minimized; every other way of activating the icon (double click,
    middle click, the request for the context menu) leaves the window as it
    is. *)
Theorem tray_click_restores (tray : bool) (reason : Window.ActivationReason)
    (w : Window.t) :
  Window.tray_activated tray reason w
  = (Ok tt,
     match reason with
     | Window.Trigger => Window.mk (Window.app w) (Window.closing w) true false
     | _ => w
     end).
Proof. destruct reason; try reflexivity. apply open_and_show_run. Qed.

(** X26: Minimizing the window hides it when the desktop has a tray, and leaves
    it on the task bar when it has none; the timer goes on in both cases. *)
Theorem minimize_hides_to_tray (tray : bool) (w : Window.t) :
  Window.minimize tray w
  = (Ok tt,
     Window.mk (Window.app w) (Window.closing w)
       (if tray then false else Window.visible w) true).
Proof. destruct w as [a c v m]. destruct tray; reflexivity. Qed.

Lemma perform_keeps_running (a : Window.action) (w : Window.t) :
  a <> Window.MenuExit -> Window.closing w = false ->
  Window.app (snd (Window.perform true a w)) = Window.app w
  /\ Window.closing (snd (Window.perform true a w)) = false.
Proof.
  intros Ha Hc. destruct w as [ap c v m]. cbn [Window.closing] in Hc. subst c.
  destruct a as [| |reason| |]; [| |destruct reason| |contradiction];
    destruct m; cbn; auto.
Qed.

Lemma after_app (tray : bool) (l1 l2 : list Window.action) (w : Window.t) :
  Window.after tray (l1 ++ l2) w = Window.after tray l2 (Window.after tray l1 w).
Proof. revert w. induction l1 as [|a l1 IH]; intros w; [reflexivity|apply IH]. Qed.

(** X27: On a desktop with a tray, nothing the user does to the window or to the
    tray icon short of "Exit" ends the program: after any series of such
    actions the program is not closing, and the window itself (its icons, its
    body and its timer) is untouched.  A click on the tray icon then brings
    it back as it was first shown. *)
Theorem only_exit_quits (actions : list Window.action) (w : Window.t) :
  Window.closing w = false ->
  ~ In Window.MenuExit actions ->
  Window.app (Window.after true actions w) = Window.app w
  /\ Window.closing (Window.after true actions w) = false
  /\ Window.after true (actions ++ [Window.Activate Window.Trigger]) w
     = Window.shown (Window.app w).
Proof.
  intros Hc Hin.
  assert (H : Window.app (Window.after true actions w) = Window.app w
              /\ Window.closing (Window.after true actions w) = false).
  { revert w Hc. induction actions as [|a l IH]; intros w Hc; [auto|].
    cbn [Window.after].
    destruct (perform_keeps_running a w) as [Ha Hc']; [|exact Hc|].
    - intros ->. apply Hin. left. reflexivity.
    - rewrite <- Ha. apply IH; [|exact Hc']. intros H. apply Hin. right. exact H. }
  destruct H as [Ha Hcl]. split; [exact Ha|]. split; [exact Hcl|].
  rewrite after_app. cbn [Window.after Window.perform].
  cbn [Window.tray_activated]. rewrite open_and_show_run. cbn [snd]. unfold Window.shown. rewrite Ha, Hcl. reflexivity.
Qed.

(* ===================================================================== *)
(** * The properties above at the sample inputs *)
(* ===================================================================== *)

(** C2 at an estimate of 7 260 000 ms, which reads 2 hours 121 minutes,
    while the file list is built, and with nothing running. *)
Lemma eta_text_rendered_samples :
  let render := fun status =>
    StatusInfo.update_status (DT := FixedZone.lib 0) status Faulty.stale in
  (StatusInfo.eta_text (snd (render Sample.backing_up)) = "ETA: 2 hours 121 minutes"
   /\ fst (render Sample.backing_up) = Ok tt)
  /\ (StatusInfo.eta_text (snd (render Sample.indexing)) = ""
      /\ fst (render Sample.indexing) = Ok tt)
  /\ (StatusInfo.eta_text (snd (render Sample.idle)) = ""
      /\ fst (render Sample.idle) = Ok tt).
Proof.
  split; [|split].
  - exact (conj
             (proj1 (eta_text_rendered (DT := FixedZone.lib 0) Sample.backing_up
                       Sample.backing_up_snapshot Faulty.stale eq_refl))
             (proj2 (eta_text_rendered (DT := FixedZone.lib 0) Sample.backing_up
                       Sample.backing_up_snapshot Faulty.stale eq_refl) eq_refl)).
  - exact (conj
             (proj1 (eta_text_rendered (DT := FixedZone.lib 0) Sample.indexing
                       Sample.indexing_snapshot Faulty.stale eq_refl))
             (proj2 (eta_text_rendered (DT := FixedZone.lib 0) Sample.indexing
                       Sample.indexing_snapshot Faulty.stale eq_refl) eq_refl)).
  - exact (conj
             (proj1 (eta_text_rendered (DT := FixedZone.lib 0) Sample.idle
                       Sample.idle_snapshot Faulty.stale eq_refl))
             (proj2 (eta_text_rendered (DT := FixedZone.lib 0) Sample.idle
                       Sample.idle_snapshot Faulty.stale eq_refl) eq_refl)).
Defined.

(** C6 at the idle snapshot, last seen 120 000 ms ago, and at the same
    snapshot with a time of the last backup in the year 10000. *)
Lemma connect_status_rendered_samples :
  (exists w',
     StatusInfo.update_status (DT := FixedZone.lib 0) Sample.idle Faulty.stale
     = (Ok tt, w')
     /\ StatusInfo.connect_status w'
        = "Connected to local UrBackup server." ++ Spec.newline
          ++ "Local server last seen 2 minutes ago.")
  /\ (exists e,
        fst (StatusInfo.update_status (DT := FixedZone.lib 0)
               Faulty.undated Faulty.stale) = Raise e
        /\ StatusInfo.connect_status
             (snd (StatusInfo.update_status (DT := FixedZone.lib 0)
                     Faulty.undated Faulty.stale))
           = "No servers").
Proof.
  split.
  - exact (proj1 (connect_status_rendered (DT := FixedZone.lib 0) Sample.idle
                    Sample.idle_snapshot Faulty.stale eq_refl) eq_refl).
  - exact (proj2 (connect_status_rendered (DT := FixedZone.lib 0) Faulty.undated
                    Faulty.undated_snapshot Faulty.stale eq_refl) eq_refl).
Defined.

(** C6 as stated fails: the idle document with a time of the last backup in
    the year 10000 is a snapshot, [datetime] has no date for that time, and
    the rendering ends with [ValueError] before it comes to the connection
    text, which still reads "No servers" where the claim wants the two
    lines for connected_local. *)
Lemma connect_status_stale_when_undated :
  let r := StatusInfo.update_status (DT := FixedZone.lib 0)
             Faulty.undated Faulty.stale in
  Snapshot.read Faulty.undated = Some Faulty.undated_snapshot
  /\ fromtimestamp (DateTime := FixedZone.lib 0) (PInt 253402300800) = Raise ValueError
  /\ fst r = Raise ValueError
  /\ StatusInfo.connect_status (snd r) = "No servers"
  /\ Spec.connect_line Faulty.undated_snapshot
     = "Connected to local UrBackup server." ++ Spec.newline
       ++ "Local server last seen 2 minutes ago."
  /\ StatusInfo.connect_status (snd r) <> Spec.connect_line Faulty.undated_snapshot.
Proof.
  cbv zeta. split; [reflexivity|]. split; [vm_compute; reflexivity|].
  split; [vm_compute; reflexivity|]. split; [vm_compute; reflexivity|].
  split; [vm_compute; reflexivity|]. vm_compute. discriminate.
Qed.

(** A time of the last backup in the year 10000, drawn over a window that
    shows a backup at 99 percent. *)
Lemma date_failure_stops_rendering_undated :
  StatusInfo.update_status (DT := FixedZone.lib 0) Faulty.undated Faulty.stale
  = (Raise ValueError,
     StatusInfo.mk "Idle. " "" 0
       "Last backup on 01/01/2020 12:00:00 AM" ["old (Internet: No)"] "No servers").
Proof.
  exact (date_failure_stops_rendering (DT := FixedZone.lib 0) Faulty.undated []
           Sample.idle_snapshot (PInt 253402300800) ValueError Faulty.stale
           eq_refl eq_refl eq_refl eq_refl).
Defined.

Lemma missing_servers_empties_list_sample :
  StatusInfo.update_status (DT := FixedZone.lib 0) Faulty.no_servers Faulty.stale
  = (Raise (KeyError "servers"),
     StatusInfo.mk "Incremental file backup running. 42% done."
       "ETA: 2 hours 121 minutes" 42
       "Last backup on 11/14/2023 10:13:20 PM" [] "No servers").
Proof.
  eapply (missing_servers_empties_list (DT := FixedZone.lib 0))
    with (s := Sample.backing_up_snapshot); reflexivity.
Defined.


Lemma server_list_rebuilt_sample :
  let w := snd (StatusInfo.update_status (DT := FixedZone.lib 0)
                  Sample.backing_up Faulty.stale) in
  StatusInfo.servers w = ["srv1 (Internet: Yes)"]
  /\ length (StatusInfo.servers w) = 1%nat.
Proof.
  exact (server_list_rebuilt (DT := FixedZone.lib 0) Sample.backing_up
           Sample.backing_up_snapshot Faulty.stale eq_refl eq_refl).
Defined.

Lemma last_backup_date_shown_sample :
  let r := StatusInfo.update_status (DT := FixedZone.lib 0)
             Sample.backing_up Faulty.stale in
  fst r = Ok tt
  /\ StatusInfo.last_backup (snd r) = "Last backup on 11/14/2023 10:13:20 PM".
Proof.
  exact (last_backup_date_shown (DT := FixedZone.lib 0) Sample.backing_up
           Sample.backing_up_snapshot 1700000000 "11/14/2023 10:13:20 PM"
           Faulty.stale eq_refl eq_refl eq_refl).
Defined.

(** The backup at 42 percent, drawn over a new window and over the stale
    one. *)
Lemma rendering_forgets_sample :
  StatusInfo.update_status (DT := FixedZone.lib 0) Sample.backing_up Sample.initial
  = StatusInfo.update_status (DT := FixedZone.lib 0) Sample.backing_up Faulty.stale.
Proof.
  apply (proj2 (rendering_forgets (DT := FixedZone.lib 0) Sample.backing_up
                  Sample.backing_up_snapshot Sample.initial Faulty.stale
                  eq_refl eq_refl ltac:(cbn; lia)));
    [reflexivity|discriminate].
Defined.

Lemma rendering_idempotent_sample :
  let render := StatusInfo.update_status (DT := FixedZone.lib 0) Sample.idle in
  render (snd (render Faulty.stale)) = render Faulty.stale.
Proof.
  exact (rendering_idempotent (DT := FixedZone.lib 0) Sample.idle
           Sample.idle_snapshot Faulty.stale eq_refl eq_refl).
Defined.

(** 150 percent over a bar at 99. *)
Lemma percent_out_of_range_sample :
  let r := StatusInfo.update_status (DT := FixedZone.lib 0)
             Faulty.overdone Faulty.stale in
  fst r = Ok tt
  /\ StatusInfo.progress_bar (snd r) = 99
  /\ StatusInfo.status_text (snd r) = "Incremental file backup running. 150% done.".
Proof.
  apply (percent_out_of_range (DT := FixedZone.lib 0) Faulty.overdone
           Faulty.overdone_snapshot (Snapshot.mk_process Snapshot.INCR (Some 60000) 150)
           [] Faulty.stale);
    [reflexivity|reflexivity|reflexivity|right; cbn; lia].
Defined.

(** The control utility printed an empty list. *)
Lemma status_not_a_dict_list :
  StatusInfo.update_status (DT := FixedZone.lib 0) (PList []) Faulty.stale
  = (Raise TypeError, Faulty.stale)
  /\ App.update_tray (PList []) Sample.window = (Raise TypeError, Sample.window).
Proof.
  apply (status_not_a_dict (DT := FixedZone.lib 0) (PList []) Faulty.stale Sample.window);
    [reflexivity|discriminate].
Defined.

(** The control utility printed an empty object. *)
Lemma missing_first_key_empty :
  StatusInfo.update_status (DT := FixedZone.lib 0) (PDict []) Faulty.stale
  = (Raise (KeyError "running_processes"), Faulty.stale)
  /\ App.update_tray (PDict []) Sample.window
     = (Raise (KeyError "internet_status"), Sample.window).
Proof.
  split.
  - exact (proj1 (missing_first_key (DT := FixedZone.lib 0) [] Faulty.stale Sample.window)
             eq_refl).
  - exact (proj2 (missing_first_key (DT := FixedZone.lib 0) [] Faulty.stale Sample.window)
             eq_refl).
Defined.

(** The control utility ends with 1 while the window shows a backup: with
    PySide2 the window turns to the unknown state, with PySide6 it stays as
    it is. *)
Lemma tick_when_utility_fails_sample :
  let m := Sample.machine "linux" 1 "" in
  let a := App.mk App.busy App.busy Faulty.stale (Some 5000) in
  App.update_status (DT := FixedZone.lib 0) (JS := Decoder.lib)
    (QT := Bindings.PySide2) (m, a)
  = (Ok tt,
     (snd (App.get_status (JS := Decoder.lib) m),
      App.mk App.not_connected App.not_connected
        (StatusInfo.mk "Could not get status!" "" 0 "" [] "Unknown")
        (Some 5000)))
  /\ snd (App.update_status (DT := FixedZone.lib 0) (JS := Decoder.lib)
            (QT := Bindings.PySide6) (m, a))
     = (snd (App.get_status (JS := Decoder.lib) m), a).
Proof.
  split.
  - apply (proj1 (tick_when_utility_fails (DT := FixedZone.lib 0) (JS := Decoder.lib)
                    (QT := Bindings.PySide2)
                    (Sample.machine "linux" 1 "")
                    (App.mk App.busy App.busy Faulty.stale (Some 5000))
                    {| returncode := 1; stdout := "" |} eq_refl
                    ltac:(discriminate)));
      reflexivity.
  - apply (proj2 (tick_when_utility_fails (DT := FixedZone.lib 0) (JS := Decoder.lib)
                    (QT := Bindings.PySide6)
                    (Sample.machine "linux" 1 "")
                    (App.mk App.busy App.busy Faulty.stale (Some 5000))
                    {| returncode := 1; stdout := "" |} eq_refl
                    ltac:(discriminate)));
      reflexivity.
Defined.

(** The control utility is gone, and the control utility prints half a
    document. *)
Lemma tick_when_poll_raises_samples :
  App.update_status (DT := FixedZone.lib 0) (JS := Decoder.lib)
    (QT := Bindings.PySide2)
    (Faulty.missing_utility, Sample.window)
  = (Raise FileNotFoundError,
     (snd (App.get_status (JS := Decoder.lib) Faulty.missing_utility), Sample.window))
  /\ App.update_status (DT := FixedZone.lib 0) (JS := Decoder.lib)
    (QT := Bindings.PySide2)
       (Sample.machine "linux" 0 "{", Sample.window)
     = (Raise JSONDecodeError,
        (snd (App.get_status (JS := Decoder.lib) (Sample.machine "linux" 0 "{")),
         Sample.window)).
Proof.
  split.
  - apply (tick_when_poll_raises (DT := FixedZone.lib 0) (JS := Decoder.lib)
    (QT := Bindings.PySide2)).
    left. reflexivity.
  - apply (tick_when_poll_raises (DT := FixedZone.lib 0) (JS := Decoder.lib)
    (QT := Bindings.PySide2)).
    right. exists {| returncode := 0; stdout := "{" |}.
    split; [reflexivity|]. split; [reflexivity|]. vm_compute. reflexivity.
Defined.

Lemma tick_draws_snapshot_idle :
  App.update_status (DT := FixedZone.lib 0) (JS := Decoder.lib)
    (QT := Bindings.PySide2)
    (Sample.machine "linux" 0 Sample.idle_document, Sample.window)
  = (Ok tt,
     (snd (App.get_status (JS := Decoder.lib)
             (Sample.machine "linux" 0 Sample.idle_document)),
      App.mk App.connected App.connected
        (StatusInfo.mk "Idle. " "" 0 "" ["srv1 (Internet: Yes)"]
           ("Connected to local UrBackup server." ++ Spec.newline
            ++ "Local server last seen 2 minutes ago."))
        None)).
Proof.
  apply (tick_draws_snapshot (DT := FixedZone.lib 0) (JS := Decoder.lib)
    (QT := Bindings.PySide2)
           (Sample.machine "linux" 0 Sample.idle_document) Sample.window
           {| returncode := 0; stdout := Sample.idle_document |}
           Sample.idle Sample.idle_snapshot);
    [reflexivity|reflexivity|vm_compute; reflexivity|reflexivity|reflexivity].
Defined.

Lemma ticks_keep_icons_together_sample :
  let s := ticks (DT := FixedZone.lib 0) (JS := Decoder.lib)
    (QT := Bindings.PySide2) 3
             (Sample.machine "linux" 0 Sample.idle_document, Sample.window) in
  App.update_timer (snd s) = None
  /\ App.tray_icon (snd s) = App.window_icon (snd s).
Proof.
  split.
  - exact (proj1 (ticks_keep_icons_together (DT := FixedZone.lib 0) (JS := Decoder.lib)
    (QT := Bindings.PySide2) 3
                    (Sample.machine "linux" 0 Sample.idle_document) Sample.window)).
  - exact (proj2 (ticks_keep_icons_together (DT := FixedZone.lib 0) (JS := Decoder.lib)
    (QT := Bindings.PySide2) 3
                    (Sample.machine "linux" 0 Sample.idle_document) Sample.window)
             eq_refl).
Defined.

Lemma init_when_utility_missing_sample :
  App.init (DT := FixedZone.lib 0) (JS := Decoder.lib)
    (QT := Bindings.PySide2) Faulty.missing_utility
  = (Raise (SystemExit 1),
     {| sys_platform := "linux";
        programs := programs Faulty.missing_utility;
        calls := [["urbackupclientctl"; "status"]];
        dialogs := [("UrBackup Error",
                     "Could not find the UrBackup control executable!")];
        printed := [] |}).
Proof.
  apply (init_when_utility_missing (DT := FixedZone.lib 0) (JS := Decoder.lib)
    (QT := Bindings.PySide2)
           Faulty.missing_utility);
    [discriminate|reflexivity].
Defined.

Lemma init_first_poll_error_propagates_sample :
  App.init (DT := FixedZone.lib 0) (JS := Decoder.lib)
    (QT := Bindings.PySide2) (Sample.machine "linux" 0 "{")
  = (Raise JSONDecodeError,
     {| sys_platform := "linux";
        programs := programs (Sample.machine "linux" 0 "{");
        calls := [["urbackupclientctl"; "status"]];
        dialogs := [];
        printed := [] |}).
Proof.
  apply (init_first_poll_error_propagates (DT := FixedZone.lib 0) (JS := Decoder.lib)
    (QT := Bindings.PySide2)
           (Sample.machine "linux" 0 "{") JSONDecodeError);
    [discriminate|vm_compute; reflexivity|discriminate].
Defined.

(** The control utility prints the idle document from the second run on;
    when first run it prints the same on the one machine and ends with 1 on
    the other. *)
Lemma init_drops_first_answer_sample :
  let m := Sample.machine "linux" 0 Sample.idle_document in
  let m' := {| sys_platform := "linux";
               programs := fun k _ =>
                             match k with
                             | O => Ok {| returncode := 1; stdout := "" |}
                             | S _ => Ok {| returncode := 0;
                                            stdout := Sample.idle_document |}
                             end;
               calls := [];
               dialogs := [];
               printed := [] |} in
  fst (App.init (DT := FixedZone.lib 0) (JS := Decoder.lib)
         (QT := Bindings.PySide2) m)
  = fst (App.init (DT := FixedZone.lib 0) (JS := Decoder.lib)
           (QT := Bindings.PySide2) m').
Proof.
  apply (init_drops_first_answer (DT := FixedZone.lib 0) (JS := Decoder.lib)
           (QT := Bindings.PySide2)
           (Sample.machine "linux" 0 Sample.idle_document)
           (fun k _ =>
              match k with
              | O => Ok {| returncode := 1; stdout := "" |}
              | S _ => Ok {| returncode := 0; stdout := Sample.idle_document |}
              end)
           Sample.idle PNone).
  - intros [|k] argv H; [destruct (H eq_refl)|reflexivity].
  - vm_compute. reflexivity.
  - reflexivity.
Defined.

Lemma init_second_poll_unguarded_sample :
  App.init (DT := FixedZone.lib 0) (JS := Decoder.lib)
    (QT := Bindings.PySide2) Faulty.utility_removed
  = (Raise FileNotFoundError,
     {| sys_platform := "linux";
        programs := programs Faulty.utility_removed;
        calls := [["urbackupclientctl"; "status"]; ["urbackupclientctl"; "status"]];
        dialogs := [];
        printed := [] |}).
Proof.
  apply (init_second_poll_unguarded (DT := FixedZone.lib 0) (JS := Decoder.lib)
    (QT := Bindings.PySide2)
           Faulty.utility_removed PNone FileNotFoundError);
    [discriminate|reflexivity|reflexivity].
Defined.

Lemma init_when_utility_fails_sample :
  let m := Sample.machine "linux" 1 "" in
  let m2 := {| sys_platform := "linux";
               programs := programs m;
               calls := [["urbackupclientctl"; "status"];
                         ["urbackupclientctl"; "status"]];
               dialogs := [];
               printed := [] |} in
  App.init (DT := FixedZone.lib 0) (JS := Decoder.lib) (QT := Bindings.PySide2) m
  = (Ok (App.mk App.not_connected App.not_connected
           (StatusInfo.mk "Could not get status!" "" 0 "" [] "Unknown")
           (Some 5000)), m2)
  /\ App.init (DT := FixedZone.lib 0) (JS := Decoder.lib) (QT := Bindings.PySide6) m
     = (Ok (App.mk App.not_connected App.not_connected Sample.initial (Some 5000)),
        m2).
Proof.
  split.
  - apply (proj1 (init_when_utility_fails (DT := FixedZone.lib 0) (JS := Decoder.lib)
                    (QT := Bindings.PySide2)
                    (Sample.machine "linux" 1 "") PNone
                    {| returncode := 1; stdout := "" |}
                    ltac:(discriminate) eq_refl eq_refl ltac:(discriminate)));
      reflexivity.
  - apply (proj2 (init_when_utility_fails (DT := FixedZone.lib 0) (JS := Decoder.lib)
                    (QT := Bindings.PySide6)
                    (Sample.machine "linux" 1 "") PNone
                    {| returncode := 1; stdout := "" |}
                    ltac:(discriminate) eq_refl eq_refl ltac:(discriminate)));
      [reflexivity|intros e; reflexivity].
Defined.

Lemma init_success_idle :
  let m := Sample.machine "linux" 0 Sample.idle_document in
  let a := App.mk App.connected App.connected
             (StatusInfo.mk "Idle. " "" 0 "" ["srv1 (Internet: Yes)"]
                ("Connected to local UrBackup server." ++ Spec.newline
                 ++ "Local server last seen 2 minutes ago."))
             (Some 5000) in
  String.eqb (sys_platform m) "win32" = false
  /\ snd (App.init (DT := FixedZone.lib 0) (JS := Decoder.lib)
    (QT := Bindings.PySide2) m)
     = {| sys_platform := sys_platform m;
          programs := programs m;
          calls := calls m ++ [["urbackupclientctl"; "status"];
                               ["urbackupclientctl"; "status"]];
          dialogs := dialogs m;
          printed := printed m |}
  /\ App.update_timer a = Some 5000
  /\ App.tray_icon a = App.window_icon a.
Proof.
  apply (init_success (DT := FixedZone.lib 0) (JS := Decoder.lib)
    (QT := Bindings.PySide2)
           (Sample.machine "linux" 0 Sample.idle_document)
           (snd (App.init (DT := FixedZone.lib 0) (JS := Decoder.lib)
    (QT := Bindings.PySide2)
                   (Sample.machine "linux" 0 Sample.idle_document)))).
  vm_compute. reflexivity.
Defined.

(** The close button of a window that is shown, on a desktop with a tray. *)
Lemma close_button_hides_or_quits_shown :
  Window.close true (Window.shown Sample.window)
  = (Ok false, Window.mk Sample.window false false false).
Proof.
  exact (close_button_hides_or_quits true (Window.shown Sample.window) eq_refl).
Defined.

(** The window is minimized, closed, and the tray icon is double-clicked;
    then the tray icon is clicked. *)
Lemma only_exit_quits_sample :
  let actions := [Window.Minimize; Window.CloseButton;
                  Window.Activate Window.DoubleClick] in
  let w := Window.shown (App.mk App.connected App.connected Faulty.stale (Some 5000)) in
  Window.app (Window.after true actions w) = Window.app w
  /\ Window.closing (Window.after true actions w) = false
  /\ Window.after true (actions ++ [Window.Activate Window.Trigger]) w = w.
Proof.
  apply (only_exit_quits
           [Window.Minimize; Window.CloseButton; Window.Activate Window.DoubleClick]
           (Window.shown (App.mk App.connected App.connected Faulty.stale (Some 5000))));
    [reflexivity|].
  intros [H|[H|[H|[]]]]; discriminate H.
Defined.
